(** * The HDF5 dataset grid model (src/dataset.ts)

    A shallow embedding of [HdfDatasetModelBase], the lazily paginated data
    model behind the HDF5 data grid, together with the properties its
    specification states about it.

    Conventions of the embedding.
    - JavaScript numbers that index rows, columns and blocks are integers
      ([Z]); [%] is the truncating remainder [Z.rem].
    - The object-as-hashmap [_blocks] is a [gmap] from block row to a [gmap]
      from block column to the block entry; a missing key is JavaScript's
      [undefined].
    - The model is single threaded.  Every method is a computation in a small
      state-and-exception monad over [System], which holds the fields of the
      object and the part of the outside world the object talks to: the
      notifications delivered to the listeners of its two signals and the
      requests handed to the transport layer (./hdf).
    - A request stays in the pending list until the event loop settles it;
      [SettleData] and [SettleContents] run the [then] callback registered by
      the source.  Listeners of the signals are not part of the model and do
      not call back into it while a notification is delivered. *)

From Stdlib Require Import Ascii.
From stdpp Require Import gmap strings list pretty.

Open Scope Z_scope.

(** ** Values of the surrounding libraries *)

(** [DataModel.CellRegion]; [DataModel.RowRegion] and
    [DataModel.ColumnRegion] are subsets of it, and the source only ever
    compares a region with string literals. *)
Inductive Region : Type :=
| body
| row_header
| column_header
| corner_header.

(** [DataModel.ChangedArgs], restricted to the shapes the model emits. *)
Inductive ChangedArgs : Type :=
| rows_removed (region : Region) (index span : Z)
| columns_removed (region : Region) (index span : Z)
| rows_inserted (region : Region) (index span : Z)
| columns_inserted (region : Region) (index span : Z)
| cells_changed (region : Region) (row column rowSpan columnSpan : Z)
| model_reset.

(** What the listeners of the model receive, in the order of delivery:
    [emitChanged] feeds the [changed] signal of [DataModel], and
    [_refreshed.emit] the [refreshed] signal. *)
Inductive Notification : Type :=
| Changed (args : ChangedArgs)
| Refreshed (ixstr : string).

(** Thrown values and rejection reasons. *)
Inductive JsError : Type :=
| TypeError
| TransportError
| NotFoundError
| InvalidSliceError
| OutOfRangeError.

(** The completion of a call, and the outcome of a settled promise. *)
Inductive Completion (A : Type) : Type :=
| Normal (a : A)
| Throw (e : JsError).
Arguments Normal {A} a.
Arguments Throw {A} e.

(** Modelled from the spec: the declaration of [ISlice] (./slice) is not part
    of the sources; a slice descriptor is [{start, stop, step}] over
    integers. *)
Record ISlice : Type := mkSlice { start : Z; stop : Z; step : Z }.

(** Modelled from the spec: [noneSlice] (./slice) is not part of the sources;
    the sentinel slice is [start = 0, stop = 0, step = 1]. *)
Definition noneSlice : ISlice := {| start := 0; stop := 0; step := 1 |}.

(** Modelled from the spec: the declaration of [IDatasetMeta] (./hdf) is not
    part of the sources; of its fields the model reads the slice string, the
    visible shape (rows, columns) and the two axis labels. *)
Record IDatasetMeta : Type := mkMeta {
  ixstr : string;
  visshape : Z * Z;
  vislabels : ISlice * ISlice
}.

(** [HdfContents] (./hdf): the source reads [content] through a non-null
    assertion, so the field may be missing. *)
Record HdfContents : Type := mkContents { content : option IDatasetMeta }.

(** [IContentsParameters] and the parameters of [hdfDataRequest]. *)
Record IContentsParameters : Type := mkContentsParams {
  cp_fpath : string;
  cp_uri : string;
  cp_ixstr : string
}.

Record IDataParameters : Type := mkDataParams {
  dp_fpath : string;
  dp_uri : string;
  dp_ixstr : string;
  dp_subixstr : string
}.

(** A block fetch in flight: the request handed to [hdfDataRequest] and the
    variables its [then] callback closes over. *)
Record BlockFetch : Type := mkFetch {
  fetch_params : IDataParameters;
  fetch_rowBlock : Z;
  fetch_colBlock : Z;
  fetch_row : Z;
  fetch_rowStop : Z;
  fetch_column : Z;
  fetch_colStop : Z
}.

(** [private _blockSize: number = 100], never assigned again. *)
Definition _blockSize : Z := 100.

(** [x || 0] on a number. *)
Definition or_zero (x : Z) : Z := if x =? 0 then 0 else x.

(** The template literal [`${n}`] of an integer. *)
Definition template (n : Z) : string := pretty n.

(** The template literal [`${row}:${rowStop}, ${column}:${colStop}`]. *)
Definition subixstr_of (row rowStop column colStop : Z) : string :=
  template row +:+ ":" +:+ template rowStop +:+ ", " +:+
  template column +:+ ":" +:+ template colStop.

(** A string without the separators [:] and [,] of a sub-range string. *)
Fixpoint plain (s : string) : Prop :=
  match s with
  | EmptyString => True
  | String c s => c <> ":"%char /\ c <> ","%char /\ plain s
  end.

(** Reading [a[i]] from an array: [undefined] outside its bounds. *)
Definition js_index {A : Type} (a : list A) (i : Z) : option A :=
  if i <? 0 then None else a !! Z.to_nat i.

Set Implicit Arguments.

Section Model.

(** The type of a cell value; the model stores and returns cells without
    looking into them. *)
Variable Cell : Type.

(** What [data] returns ([any] in the source). *)
Inductive JsValue : Type :=
| JsNull
| JsUndefined
| JsString (s : string)
| JsCell (v : Cell).

(** An entry of [_blocks[rowBlock][colBlock]]: the string ["busy"] or the
    array that [hdfDataRequest] resolved with. *)
Inductive Block : Type :=
| busy
| loaded (data : list (list Cell)).

(** The object and its surroundings: the private fields of the class, the
    notifications delivered so far, every request ever handed to
    [hdfDataRequest] and [hdfContentsRequest], and those among them that the
    event loop has not settled yet. *)
Record System : Type := mkSystem {
  _fpath : string;
  _uri : string;
  _meta : option IDatasetMeta;
  _ixstr : string;
  _blocks : gmap Z (gmap Z Block);
  _ready : bool;
  delivered : list Notification;
  dataRequests : list BlockFetch;
  pendingData : list BlockFetch;
  contentsRequests : list IContentsParameters;
  pendingContents : list IContentsParameters
}.

(** [new HdfDatasetModelBase()]. *)
Definition new_model : System :=
  {| _fpath := ""; _uri := ""; _meta := None; _ixstr := "";
     _blocks := ∅; _ready := false; delivered := [];
     dataRequests := []; pendingData := [];
     contentsRequests := []; pendingContents := [] |}.

(** Assignments to the fields. *)
Definition set_fpath (v : string) (s : System) : System :=
  {| _fpath := v; _uri := _uri s; _meta := _meta s; _ixstr := _ixstr s;
     _blocks := _blocks s; _ready := _ready s; delivered := delivered s;
     dataRequests := dataRequests s; pendingData := pendingData s;
     contentsRequests := contentsRequests s;
     pendingContents := pendingContents s |}.

Definition set_uri (v : string) (s : System) : System :=
  {| _fpath := _fpath s; _uri := v; _meta := _meta s; _ixstr := _ixstr s;
     _blocks := _blocks s; _ready := _ready s; delivered := delivered s;
     dataRequests := dataRequests s; pendingData := pendingData s;
     contentsRequests := contentsRequests s;
     pendingContents := pendingContents s |}.

Definition set_meta (v : option IDatasetMeta) (s : System) : System :=
  {| _fpath := _fpath s; _uri := _uri s; _meta := v; _ixstr := _ixstr s;
     _blocks := _blocks s; _ready := _ready s; delivered := delivered s;
     dataRequests := dataRequests s; pendingData := pendingData s;
     contentsRequests := contentsRequests s;
     pendingContents := pendingContents s |}.

Definition set_ixstr (v : string) (s : System) : System :=
  {| _fpath := _fpath s; _uri := _uri s; _meta := _meta s; _ixstr := v;
     _blocks := _blocks s; _ready := _ready s; delivered := delivered s;
     dataRequests := dataRequests s; pendingData := pendingData s;
     contentsRequests := contentsRequests s;
     pendingContents := pendingContents s |}.

Definition set_blocks (v : gmap Z (gmap Z Block)) (s : System) : System :=
  {| _fpath := _fpath s; _uri := _uri s; _meta := _meta s; _ixstr := _ixstr s;
     _blocks := v; _ready := _ready s; delivered := delivered s;
     dataRequests := dataRequests s; pendingData := pendingData s;
     contentsRequests := contentsRequests s;
     pendingContents := pendingContents s |}.

Definition set_ready (v : bool) (s : System) : System :=
  {| _fpath := _fpath s; _uri := _uri s; _meta := _meta s; _ixstr := _ixstr s;
     _blocks := _blocks s; _ready := v; delivered := delivered s;
     dataRequests := dataRequests s; pendingData := pendingData s;
     contentsRequests := contentsRequests s;
     pendingContents := pendingContents s |}.

(** Delivery of a notification to the listeners. *)
Definition deliver (n : Notification) (s : System) : System :=
  {| _fpath := _fpath s; _uri := _uri s; _meta := _meta s; _ixstr := _ixstr s;
     _blocks := _blocks s; _ready := _ready s;
     delivered := delivered s ++ [n];
     dataRequests := dataRequests s; pendingData := pendingData s;
     contentsRequests := contentsRequests s;
     pendingContents := pendingContents s |}.

(** A call of [hdfDataRequest(params, ...).then(callback)]. *)
Definition request_data (f : BlockFetch) (s : System) : System :=
  {| _fpath := _fpath s; _uri := _uri s; _meta := _meta s; _ixstr := _ixstr s;
     _blocks := _blocks s; _ready := _ready s; delivered := delivered s;
     dataRequests := dataRequests s ++ [f];
     pendingData := pendingData s ++ [f];
     contentsRequests := contentsRequests s;
     pendingContents := pendingContents s |}.

(** A call of [hdfContentsRequest(params, ...).then(callback)]. *)
Definition request_contents (p : IContentsParameters) (s : System) : System :=
  {| _fpath := _fpath s; _uri := _uri s; _meta := _meta s; _ixstr := _ixstr s;
     _blocks := _blocks s; _ready := _ready s; delivered := delivered s;
     dataRequests := dataRequests s; pendingData := pendingData s;
     contentsRequests := contentsRequests s ++ [p];
     pendingContents := pendingContents s ++ [p] |}.

(** The event loop takes a pending request out of the list to settle it. *)
Definition take_data (i : nat) (s : System) : System :=
  {| _fpath := _fpath s; _uri := _uri s; _meta := _meta s; _ixstr := _ixstr s;
     _blocks := _blocks s; _ready := _ready s; delivered := delivered s;
     dataRequests := dataRequests s; pendingData := delete i (pendingData s);
     contentsRequests := contentsRequests s;
     pendingContents := pendingContents s |}.

Definition take_contents (i : nat) (s : System) : System :=
  {| _fpath := _fpath s; _uri := _uri s; _meta := _meta s; _ixstr := _ixstr s;
     _blocks := _blocks s; _ready := _ready s; delivered := delivered s;
     dataRequests := dataRequests s; pendingData := pendingData s;
     contentsRequests := contentsRequests s;
     pendingContents := delete i (pendingContents s) |}.

(** *** The monad of method bodies

    A thrown exception keeps the assignments made before it. *)
Definition M (A : Type) : Type := System -> Completion A * System.

#[local] Instance M_ret : MRet M := fun A a s => (Normal a, s).

#[local] Instance M_bind : MBind M := fun A B k m s =>
  match m s with
  | (Normal a, s') => k a s'
  | (Throw e, s') => (Throw e, s')
  end.

Definition throw {A : Type} (e : JsError) : M A := fun s => (Throw e, s).

Definition get : M System := fun s => (Normal s, s).

Definition modify (f : System -> System) : M unit := fun s => (Normal tt, f s).

(** [this.emitChanged(args)] and [this._refreshed.emit(ixstr)]. *)
Definition emitChanged (args : ChangedArgs) : M unit :=
  modify (deliver (Changed args)).

Definition _refreshed_emit (ixstr : string) : M unit :=
  modify (deliver (Refreshed ixstr)).

(** ** The methods of [HdfDatasetModelBase] *)

Definition columnCount (region : Region) (s : System) : Z :=
  match region with
  | body => match _meta s with
            | Some meta => or_zero (snd (visshape meta))
            | None => 0
            end
  | _ => 1
  end.

Definition rowCount (region : Region) (s : System) : Z :=
  match region with
  | body => match _meta s with
            | Some meta => or_zero (fst (visshape meta))
            | None => 0
            end
  | _ => 1
  end.

Definition rowSlice (s : System) : ISlice :=
  match _meta s with
  | Some meta => fst (vislabels meta)
  | None => noneSlice
  end.

Definition colSlice (s : System) : ISlice :=
  match _meta s with
  | Some meta => snd (vislabels meta)
  | None => noneSlice
  end.

(** [get ixstr()]. *)
Definition get_ixstr (s : System) : string := _ixstr s.

(** The [then] callback of [_fetchBlock]; [f] holds the variables it closes
    over.  Writing to [this._blocks[rowBlock][colBlock]] is a [TypeError]
    when [this._blocks[rowBlock]] is [undefined]. *)
Definition _fetchBlock_then (f : BlockFetch) (data : list (list Cell)) : M unit :=
  s ← get;
  match _blocks s !! fetch_rowBlock f with
  | None => throw TypeError
  | Some rowEntry =>
    modify (set_blocks
      (<[fetch_rowBlock f := <[fetch_colBlock f := loaded data]> rowEntry]>
         (_blocks s)));;
    emitChanged (cells_changed body (fetch_row f) (fetch_column f)
                   (fetch_rowStop f - fetch_row f)
                   (fetch_colStop f - fetch_column f))
  end.

Definition _fetchBlock (rowBlock colBlock : Z) : M unit :=
  s ← get;
  match _blocks s !! rowBlock with
  | None => throw TypeError
  | Some rowEntry =>
    modify (set_blocks
      (<[rowBlock := <[colBlock := busy]> rowEntry]> (_blocks s)));;
    s ← get;
    let row := rowBlock * _blockSize in
    let rowStop := Z.min (row + _blockSize) (rowCount body s) in
    let column := colBlock * _blockSize in
    let colStop := Z.min (column + _blockSize) (columnCount body s) in
    let params :=
      {| dp_fpath := _fpath s; dp_uri := _uri s; dp_ixstr := _ixstr s;
         dp_subixstr := subixstr_of row rowStop column colStop |} in
    modify (request_data
      {| fetch_params := params;
         fetch_rowBlock := rowBlock; fetch_colBlock := colBlock;
         fetch_row := row; fetch_rowStop := rowStop;
         fetch_column := column; fetch_colStop := colStop |})
  end.

(** [block[relRow][relCol]] on a loaded block: reading a property of
    [undefined] is a [TypeError]. *)
Definition block_cell (data : list (list Cell)) (relRow relCol : Z)
  : M JsValue :=
  match js_index data relRow with
  | None => throw TypeError
  | Some cells =>
    mret (match js_index cells relCol with
          | Some v => JsCell v
          | None => JsUndefined
          end)
  end.

Definition data (region : Region) (row col : Z) : M JsValue :=
  match region with
  | row_header =>
    s ← get;
    mret (JsString (template (start (rowSlice s) + row * step (rowSlice s))))
  | column_header =>
    s ← get;
    mret (JsString (template (start (colSlice s) + col * step (colSlice s))))
  | corner_header => mret JsNull
  | body =>
    let relRow := Z.rem row _blockSize in
    let relCol := Z.rem col _blockSize in
    let rowBlock := (row - relRow) / _blockSize in
    let colBlock := (col - relCol) / _blockSize in
    s ← get;
    match _blocks s !! rowBlock with
    | Some rowEntry =>
      match rowEntry !! colBlock with
      | Some busy => mret JsNull
      | Some (loaded block) => block_cell block relRow relCol
      | None => _fetchBlock rowBlock colBlock;; mret JsNull
      end
    | None =>
      modify (set_blocks (<[rowBlock := ∅]> (_blocks s)));;
      _fetchBlock rowBlock colBlock;;
      mret JsNull
    end
  end.

Definition _refresh (meta : option IDatasetMeta) : M unit :=
  s ← get;
  let oldRowCount := rowCount body s in
  let oldColCount := columnCount body s in
  modify (set_meta meta);;
  modify (set_blocks ∅);;
  emitChanged (rows_removed body 0 oldRowCount);;
  emitChanged (columns_removed body 0 oldColCount);;
  s1 ← get;
  emitChanged (rows_inserted body 0 (rowCount body s1));;
  s2 ← get;
  emitChanged (columns_inserted body 0 (columnCount body s2));;
  emitChanged model_reset;;
  s3 ← get;
  _refreshed_emit (get_ixstr s3).

(** [refresh()] up to the point where it hands the request to the transport
    layer; the promise it returns settles in [refresh_then]. *)
Definition refresh : M unit :=
  s ← get;
  let params :=
    {| cp_fpath := _fpath s; cp_uri := _uri s; cp_ixstr := _ixstr s |} in
  modify (request_contents params).

(** The promise returned by [refresh()], once [hdfContentsRequest] has
    settled with [outcome]: a rejection passes through the [then], a
    response runs [_refresh] on its content. *)
Definition refresh_then (outcome : Completion HdfContents) : M unit :=
  match outcome with
  | Throw e => throw e
  | Normal contents => _refresh (content contents)
  end.

(** [set ixstr(ixstr)]. *)
Definition set_ixstr_prop (ixstr : string) : M unit :=
  modify (set_ixstr ixstr);;
  refresh.

(** [init({fpath, uri, meta})]; [_refresh] has no [await], so the promise it
    returns is already resolved and [_ready] resolves right after it. *)
Definition init (fpath uri : string) (meta : IDatasetMeta) : M unit :=
  modify (set_fpath fpath);;
  modify (set_uri uri);;
  modify (set_ixstr (ixstr meta));;
  _refresh (Some meta);;
  modify (set_ready true).

(** ** The event loop

    What can happen to the model between two turns of the event loop: a
    consumer calls one of its methods, or a pending request settles and the
    callback registered on it runs. *)
Inductive Action : Type :=
| CallData (region : Region) (row col : Z)
| SetIxstr (ixstr : string)
| CallRefresh
| SettleData (i : nat) (outcome : Completion (list (list Cell)))
| SettleContents (i : nat) (outcome : Completion HdfContents).

(** The promise [hdfDataRequest(...).then(callback)] of the [i]-th pending
    block fetch; [_fetchBlock] drops it, so nobody observes its outcome. *)
Definition settle_data (i : nat) (outcome : Completion (list (list Cell)))
  : M unit :=
  s ← get;
  match pendingData s !! i with
  | None => mret tt
  | Some f =>
    modify (take_data i);;
    match outcome with
    | Normal d => _fetchBlock_then f d
    | Throw e => throw e
    end
  end.

(** The promise returned by the [i]-th pending [refresh()]. *)
Definition settle_contents (i : nat) (outcome : Completion HdfContents)
  : M unit :=
  s ← get;
  match pendingContents s !! i with
  | None => mret tt
  | Some _ => modify (take_contents i);; refresh_then outcome
  end.

Definition run (a : Action) : M unit :=
  match a with
  | CallData region row col => data region row col;; mret tt
  | SetIxstr v => set_ixstr_prop v
  | CallRefresh => refresh
  | SettleData i outcome => settle_data i outcome
  | SettleContents i outcome => settle_contents i outcome
  end.

(** One turn of the event loop. *)
Definition turn (a : Action) (s : System) : System := (run a s).2.

Definition exec (acts : list Action) (s : System) : System :=
  foldl (fun s a => turn a s) s acts.

(** The only action that replaces the block cache is a metadata response
    ([_refresh] is reached from nowhere else once the model is initialised). *)
Definition invalidating (a : Action) : bool :=
  match a with
  | SettleContents _ (Normal _) => true
  | _ => false
  end.

(** The state of the block [(rowBlock, colBlock)]: [None] is Absent,
    [Some busy] Pending and [Some (loaded d)] Resolved. *)
Definition block_state (s : System) (rowBlock colBlock : Z) : option Block :=
  _blocks s !! rowBlock ≫= (.!! colBlock).

(** The fetch that [_fetchBlock(rowBlock, colBlock)] hands to the transport
    layer when it runs in the state [s]. *)
Definition issued_fetch (s : System) (rowBlock colBlock : Z) : BlockFetch :=
  let row := rowBlock * _blockSize in
  let rowStop := Z.min (row + _blockSize) (rowCount body s) in
  let column := colBlock * _blockSize in
  let colStop := Z.min (column + _blockSize) (columnCount body s) in
  {| fetch_params :=
       {| dp_fpath := _fpath s; dp_uri := _uri s; dp_ixstr := _ixstr s;
          dp_subixstr := subixstr_of row rowStop column colStop |};
     fetch_rowBlock := rowBlock; fetch_colBlock := colBlock;
     fetch_row := row; fetch_rowStop := rowStop;
     fetch_column := column; fetch_colStop := colStop |}.

(** The notification the [then] callback of a fetch emits. *)
Definition fetch_event (f : BlockFetch) : Notification :=
  Changed (cells_changed body (fetch_row f) (fetch_column f)
             (fetch_rowStop f - fetch_row f)
             (fetch_colStop f - fetch_column f)).

(** Whether a fetch is one for the block [(rowBlock, colBlock)]. *)
Definition fetch_for (rowBlock colBlock : Z) (f : BlockFetch) : bool :=
  bool_decide (fetch_rowBlock f = rowBlock ∧ fetch_colBlock f = colBlock).

(** How many of the fetches in [l] are for the block. *)
Definition fetches_for (rowBlock colBlock : Z) (l : list BlockFetch) : nat :=
  length (filter (fun f => fetch_for rowBlock colBlock f = true) l).

(** A turn of the event loop that is not an invalidation keeps the
    metadata and leaves the cache alone, or marks one Absent block busy and
    issues its fetch, or stores the data of one pending fetch. *)
Inductive TurnKind (s s' : System) : Prop :=
| turn_idle :
    _meta s' = _meta s ->
    _blocks s' = _blocks s ->
    dataRequests s' = dataRequests s ->
    delivered s' = delivered s ->
    (pendingData s' = pendingData s \/
     exists i, pendingData s' = delete i (pendingData s)) ->
    TurnKind s s'
| turn_fetch (rowBlock colBlock : Z) :
    _meta s' = _meta s ->
    block_state s rowBlock colBlock = None ->
    _blocks s' =
      <[rowBlock := <[colBlock := busy]> (default ∅ (_blocks s !! rowBlock))]>
        (_blocks s) ->
    dataRequests s' = dataRequests s ++ [issued_fetch s rowBlock colBlock] ->
    pendingData s' = pendingData s ++ [issued_fetch s rowBlock colBlock] ->
    delivered s' = delivered s ->
    TurnKind s s'
| turn_store (i : nat) (f : BlockFetch) (d : list (list Cell)) :
    _meta s' = _meta s ->
    pendingData s !! i = Some f ->
    is_Some (_blocks s !! fetch_rowBlock f) ->
    _blocks s' =
      <[fetch_rowBlock f :=
          <[fetch_colBlock f := loaded d]>
            (default ∅ (_blocks s !! fetch_rowBlock f))]> (_blocks s) ->
    dataRequests s' = dataRequests s ->
    pendingData s' = delete i (pendingData s) ->
    delivered s' = delivered s ++ [fetch_event f] ->
    TurnKind s s'.

End Model.

Unset Implicit Arguments.

Arguments JsNull {Cell}.
Arguments JsUndefined {Cell}.
Arguments JsString {Cell} s.
Arguments JsCell {Cell} v.
Arguments busy {Cell}.
Arguments new_model {Cell}.
Arguments get {Cell}.
Arguments CallData {Cell} region row col.
Arguments SetIxstr {Cell} ixstr.
Arguments CallRefresh {Cell}.
Arguments SettleData {Cell} i outcome.
Arguments SettleContents {Cell} i outcome.

(** ** Example states

    A grid of 250 rows and 50 columns over the whole dataset, the same
    dataset re-sliced to every second row from 10 to 110, and the states of a
    model that was opened on the first, queried, and re-sliced. *)

Definition meta_full : IDatasetMeta :=
  {| ixstr := ":, :"; visshape := (250, 50);
     vislabels := (mkSlice 0 250 1, mkSlice 0 50 1) |}.

Definition meta_sliced : IDatasetMeta :=
  {| ixstr := "10:110:2, :"; visshape := (50, 50);
     vislabels := (mkSlice 10 110 2, mkSlice 0 50 1) |}.

(** After [init] on the full grid. *)
Definition opened : System Z :=
  (init "data.h5" "/grid" meta_full new_model).2.

(** After [init] on the sliced grid. *)
Definition sliced : System Z :=
  (init "data.h5" "/grid" meta_sliced new_model).2.


(** The cell (0, 0) was queried: the fetch of block (0, 0) is in flight. *)
Definition querying : System Z := exec [CallData body 0 0] opened.

(** Then the slice string was set and the metadata came back before the
    fetch of block (0, 0) settled. *)
Definition refreshed_while_fetching : System Z :=
  exec [SetIxstr "10:110:2, :";
        SettleContents 0 (Normal (mkContents (Some meta_sliced)))] querying.

(** Then the cell (0, 0) was queried again: a second fetch of block (0, 0)
    is in flight next to the first. *)
Definition queried_again : System Z :=
  exec [CallData body 0 0] refreshed_while_fetching.

(** Block (2, 0), at the lower edge of the full grid, was queried and its
    fetch resolved with the 50 rows of 50 cells it asked for. *)
Definition edge_loaded : System Z :=
  exec [CallData body 200 0; SettleData 0 (Normal (replicate 50 (replicate 50 7)))]
    opened.

(** The fetch of block (0, 0) resolved with an empty array. *)
Definition empty_loaded : System Z :=
  exec [SettleData 0 (Normal [])] querying.

(** ** The rest of the file

    [HdfDatasetModelParams], the subclass that asks for the metadata itself,
    and the notions used to state how the model behaves over a whole run. *)

Section Params.

Variable Cell : Type.

#[local] Existing Instance M_ret.
#[local] Existing Instance M_bind.

(** [HdfDatasetModelParams._onMetaReady(parameters, contents)]: the callback
    of the metadata request that the constructor sends.  It passes
    [contents.content] to [init] as it is; when the response has no content,
    [init] assigns the path and the uri and then throws on [meta.ixstr]. *)
Definition _onMetaReady (parameters : IContentsParameters)
    (contents : HdfContents) : M Cell unit :=
  let fpath := cp_fpath parameters in
  let uri := cp_uri parameters in
  match content contents with
  | Some meta => init fpath uri meta
  | None =>
    modify (set_fpath fpath);;
    modify (set_uri uri);;
    throw TypeError
  end.

(** The place of a block state in the life cycle Absent, Pending, Resolved. *)
Definition block_rank (b : option (Block Cell)) : nat :=
  match b with
  | None => 0
  | Some busy => 1
  | Some (loaded _) => 2
  end.

(** A response that has the shape of the rectangle its fetch asked for. *)
Definition well_shaped (f : BlockFetch) (d : list (list Cell)) : Prop :=
  Z.of_nat (length d) = fetch_rowStop f - fetch_row f /\
  Forall (fun cells : list Cell =>
            Z.of_nat (length cells) = fetch_colStop f - fetch_column f) d.

(** How many invalidations a run contains. *)
Definition invalidations (acts : list (Action Cell)) : nat :=
  length (filter (fun a => invalidating a = true) acts).

(** The slice string after a run that starts with the slice string [v]: the
    last value assigned to the property, if any. *)
Fixpoint last_ixstr (acts : list (Action Cell)) (v : string) : string :=
  match acts with
  | [] => v
  | SetIxstr w :: acts => last_ixstr acts w
  | _ :: acts => last_ixstr acts v
  end.

End Params.

Arguments _onMetaReady {Cell} parameters contents _.
Arguments block_rank {Cell} b.
Arguments well_shaped {Cell} f d.
Arguments invalidations {Cell} acts.
Arguments last_ixstr {Cell} acts v.

(** A block request of the resource [(fpath, uri)]: it starts at the origin
    of its block, asks for at most [blockSize] rows and columns, and its
    sub-range string spells that rectangle. *)
Definition block_request (fpath uri : string) (f : BlockFetch) : Prop :=
  dp_fpath (fetch_params f) = fpath /\
  dp_uri (fetch_params f) = uri /\
  fetch_row f = fetch_rowBlock f * _blockSize /\
  fetch_column f = fetch_colBlock f * _blockSize /\
  fetch_rowStop f <= fetch_row f + _blockSize /\
  fetch_colStop f <= fetch_column f + _blockSize /\
  dp_subixstr (fetch_params f) =
    subixstr_of (fetch_row f) (fetch_rowStop f)
      (fetch_column f) (fetch_colStop f).

(** ** Properties *)

(** *** The sub-range string *)

Lemma pretty_N_go_plain (x : N) (s : string) :
  plain s -> plain (pretty_N_go x s).
Proof.
  revert s. induction (N.lt_wf_0 x) as [x _ IH]; intros s Hs.
  destruct (decide (x = 0)%N) as [->|Hx]; [exact Hs|].
  rewrite pretty_N_go_step by lia.
  apply IH; [apply N.div_lt; lia|].
  simpl. unfold pretty_N_char.
  repeat case_match; repeat split; (discriminate || exact Hs).
Qed.

Lemma template_plain (n : Z) : plain (template n).
Proof.
  unfold template, pretty, pretty_Z.
  destruct n as [|p|p]; [simpl; repeat split; discriminate| |].
  - unfold pretty, pretty_positive, pretty, pretty_N.
    case_decide; [simpl; repeat split; discriminate|].
    apply pretty_N_go_plain. exact I.
  - simpl. repeat split; try discriminate.
    unfold pretty, pretty_positive, pretty, pretty_N.
    case_decide; [simpl; repeat split; discriminate|].
    apply pretty_N_go_plain. exact I.
Qed.

(** A separator splits the concatenation of two plain strings in one way. *)
Lemma plain_split (sep : ascii) (s1 s2 r1 r2 : string) :
  sep = ":"%char \/ sep = ","%char ->
  plain s1 -> plain s2 ->
  s1 +:+ String sep r1 = s2 +:+ String sep r2 ->
  s1 = s2 /\ r1 = r2.
Proof.
  intros Hsep. revert s2.
  induction s1 as [|c s1 IH]; intros [|c' s2]; simpl; intros H1 H2 E.
  - injection E as ->. auto.
  - injection E as <- _. destruct H2 as (? & ? & _). destruct Hsep; congruence.
  - injection E as -> _. destruct H1 as (? & ? & _). destruct Hsep; congruence.
  - injection E as -> E. destruct H1 as (_ & _ & H1), H2 as (_ & _ & H2).
    destruct (IH s2 H1 H2 E) as [-> ->]. auto.
Qed.

(** The sub-range string determines the rectangle it was built from. *)
Lemma subixstr_of_inj (r1 t1 c1 u1 r2 t2 c2 u2 : Z) :
  subixstr_of r1 t1 c1 u1 = subixstr_of r2 t2 c2 u2 ->
  r1 = r2 /\ t1 = t2 /\ c1 = c2 /\ u1 = u2.
Proof.
  unfold subixstr_of. simpl. intros E.
  apply plain_split in E as [Er E]; auto using template_plain.
  apply plain_split in E as [Et E]; auto using template_plain.
  injection E as E.
  apply plain_split in E as [Ec Eu]; auto using template_plain.
  unfold template in *.
  repeat split; eapply (inj pretty); eassumption.
Qed.

Ltac unfold_m :=
  unfold mbind, M_bind, mret, M_ret, get, modify, throw, emitChanged,
    _refreshed_emit in *.

Section Properties.

Context {Cell : Type}.

Implicit Types (s : System Cell) (a : Action Cell) (acts : list (Action Cell)).
Implicit Types (row col rowBlock colBlock : Z) (f : BlockFetch).

(** *** Arithmetic of block coordinates *)

Lemma or_zero_id (x : Z) : or_zero x = x.
Proof. unfold or_zero. destruct (Z.eqb_spec x 0); congruence. Qed.

(** On a non-negative index the remainder of the source is the modulus. *)
Lemma rel_nonneg (row : Z) : 0 <= row -> Z.rem row _blockSize = row mod _blockSize.
Proof. intros H. apply Z.rem_mod_nonneg; [exact H | reflexivity]. Qed.

(** [(row - relRow) / blockSize] is an exact division; on a non-negative
    index it is the floor of [row / blockSize]. *)
Lemma block_exact (row : Z) :
  (row - Z.rem row _blockSize) / _blockSize = Z.quot row _blockSize.
Proof.
  unfold _blockSize.
  pose proof (Z.quot_rem' row 100) as E.
  replace (row - Z.rem row 100) with (Z.quot row 100 * 100) by lia.
  apply Z.div_mul. lia.
Qed.

Lemma block_nonneg (row : Z) :
  0 <= row -> (row - Z.rem row _blockSize) / _blockSize = row / _blockSize.
Proof.
  intros H. rewrite block_exact. apply Z.quot_div_nonneg; [exact H | reflexivity].
Qed.

(** *** The methods, run on a state *)

Lemma fetchBlock_run s rowBlock colBlock (rowEntry : gmap Z (Block Cell)) :
  _blocks s !! rowBlock = Some rowEntry ->
  _fetchBlock rowBlock colBlock s =
    (Normal tt,
     request_data (issued_fetch s rowBlock colBlock)
       (set_blocks (<[rowBlock := <[colBlock := busy]> rowEntry]> (_blocks s)) s)).
Proof.
  intros H. unfold _fetchBlock. unfold_m. rewrite H. reflexivity.
Qed.

Lemma fetchBlock_then_run s f (d : list (list Cell)) (rowEntry : gmap Z (Block Cell)) :
  _blocks s !! fetch_rowBlock f = Some rowEntry ->
  _fetchBlock_then f d s =
    (Normal tt,
     deliver (fetch_event f)
       (set_blocks
          (<[fetch_rowBlock f := <[fetch_colBlock f := loaded d]> rowEntry]>
             (_blocks s)) s)).
Proof.
  intros H. unfold _fetchBlock_then. unfold_m. rewrite H. reflexivity.
Qed.

Lemma fetchBlock_then_throw s f (d : list (list Cell)) :
  _blocks s !! fetch_rowBlock f = None ->
  _fetchBlock_then f d s = (Throw TypeError, s).
Proof.
  intros H. unfold _fetchBlock_then. unfold_m. rewrite H. reflexivity.
Qed.

(** The three cases of a body query, by the state of the owning block. *)
Lemma data_body_run s row col :
  let relRow := Z.rem row _blockSize in
  let relCol := Z.rem col _blockSize in
  let rowBlock := Z.quot row _blockSize in
  let colBlock := Z.quot col _blockSize in
  match block_state s rowBlock colBlock with
  | None =>
    data body row col s =
      (Normal JsNull,
       request_data (issued_fetch s rowBlock colBlock)
         (set_blocks
            (<[rowBlock := <[colBlock := busy]> (default ∅ (_blocks s !! rowBlock))]>
               (_blocks s)) s))
  | Some busy => data body row col s = (Normal JsNull, s)
  | Some (loaded d) => data body row col s = block_cell d relRow relCol s
  end.
Proof.
  intros relRow relCol rowBlock colBlock.
  unfold block_state, data. rewrite !block_exact.
  fold relRow relCol rowBlock colBlock. unfold_m.
  destruct (_blocks s !! rowBlock) as [rowEntry|] eqn:Hrow; simpl.
  - destruct (rowEntry !! colBlock) as [[|d]|] eqn:Hcol; try reflexivity.
    rewrite (fetchBlock_run _ _ _ _ Hrow). reflexivity.
  - erewrite fetchBlock_run by (simpl; apply lookup_insert_eq).
    simpl. rewrite insert_insert_eq. reflexivity.
Qed.

Lemma block_cell_state s (d : list (list Cell)) (relRow relCol : Z) :
  (block_cell d relRow relCol s).2 = s.
Proof.
  unfold block_cell. destruct (js_index d relRow); reflexivity.
Qed.

(** Writing one entry of the two-level cache, read back at any block. *)
Lemma lookup2_insert (m : gmap Z (gmap Z (Block Cell))) (rowBlock colBlock : Z)
    (v : Block Cell) (rowBlock' colBlock' : Z) :
  <[rowBlock := <[colBlock := v]> (default ∅ (m !! rowBlock))]> m !! rowBlock'
    ≫= (.!! colBlock')
  = if decide (rowBlock = rowBlock' ∧ colBlock = colBlock') then Some v
    else m !! rowBlock' ≫= (.!! colBlock').
Proof.
  destruct (decide (rowBlock = rowBlock')) as [<-|Hr].
  - rewrite lookup_insert_eq. simpl.
    destruct (decide (colBlock = colBlock')) as [<-|Hc].
    + rewrite lookup_insert_eq. rewrite decide_True by done. reflexivity.
    + rewrite lookup_insert_ne by done. rewrite decide_False by tauto.
      destruct (m !! rowBlock); reflexivity.
  - rewrite lookup_insert_ne by done. rewrite decide_False by tauto. reflexivity.
Qed.


(** *** One turn of the event loop without invalidation *)

Lemma turn_kind a s : invalidating a = false -> TurnKind s (turn a s).
Proof.
  intros Hinv. destruct a as [region row col|v| |i o|i o]; unfold turn, run.
  - (* a query *)
    destruct region; try (apply turn_idle; auto; fail).
    pose proof (data_body_run s row col) as H. cbv zeta in H.
    unfold mbind, M_bind, mret, M_ret.
    destruct (block_state s (row ÷ _blockSize) (col ÷ _blockSize))
      as [[|d]|] eqn:Hb.
    + rewrite H. apply turn_idle; auto.
    + rewrite H.
      pose proof (block_cell_state s d (Z.rem row _blockSize) (Z.rem col _blockSize)) as E.
      destruct (block_cell d _ _ s) as [[v|e] s'']; simpl in E; subst s'';
        apply turn_idle; auto.
    + rewrite H. simpl. eapply turn_fetch; eauto.
  - (* the setter *)
    apply turn_idle; auto.
  - apply turn_idle; auto.
  - (* a block fetch settles *)
    unfold settle_data. unfold_m.
    destruct (pendingData s !! i) as [f|] eqn:Hi; [|apply turn_idle; auto].
    destruct o as [d|e]; [|apply turn_idle; simpl; eauto].
    destruct (_blocks s !! fetch_rowBlock f) as [rowEntry|] eqn:Hrow.
    + erewrite fetchBlock_then_run by (simpl; exact Hrow). simpl.
      eapply turn_store; simpl; eauto. rewrite Hrow. reflexivity.
    + rewrite fetchBlock_then_throw by (simpl; exact Hrow).
      apply turn_idle; simpl; eauto.
  - (* a metadata request is rejected *)
    destruct o as [c|e]; [discriminate|].
    unfold settle_contents. unfold_m.
    destruct (pendingContents s !! i); apply turn_idle; auto.
Qed.

(** A block that is not Absent stays so until the next invalidation. *)
Lemma turn_block_kept a s rowBlock colBlock :
  invalidating a = false ->
  is_Some (block_state s rowBlock colBlock) ->
  is_Some (block_state (turn a s) rowBlock colBlock).
Proof.
  intros Hinv Hb. unfold block_state in *.
  destruct (turn_kind a s Hinv) as [_ E _ _ _|rb cb _ _ E _ _ _|i f d _ _ _ E _ _ _];
    rewrite E; [exact Hb| |]; rewrite lookup2_insert; case_decide; eauto.
Qed.



Lemma fetches_for_app rowBlock colBlock (l1 l2 : list BlockFetch) :
  fetches_for rowBlock colBlock (l1 ++ l2) =
    (fetches_for rowBlock colBlock l1 + fetches_for rowBlock colBlock l2)%nat.
Proof. unfold fetches_for. rewrite filter_app, length_app. reflexivity. Qed.

Lemma fetches_for_one rowBlock colBlock f :
  fetches_for rowBlock colBlock [f] =
    if fetch_for rowBlock colBlock f then 1%nat else 0%nat.
Proof.
  unfold fetches_for. rewrite filter_cons, filter_nil.
  destruct (fetch_for rowBlock colBlock f); [rewrite decide_True by done|
    rewrite decide_False by done]; reflexivity.
Qed.

(** One turn issues at most one fetch for a block, none if the block is not
    Absent, and a block whose fetch was issued is not Absent afterwards. *)
Lemma turn_requests a s rowBlock colBlock :
  invalidating a = false ->
  exists new,
    dataRequests (turn a s) = dataRequests s ++ new /\
    (fetches_for rowBlock colBlock new <= 1)%nat /\
    (is_Some (block_state s rowBlock colBlock) ->
     fetches_for rowBlock colBlock new = 0%nat) /\
    (fetches_for rowBlock colBlock new = 1%nat ->
     is_Some (block_state (turn a s) rowBlock colBlock)).
Proof.
  intros Hinv.
  destruct (turn_kind a s Hinv) as [_ _ E _ _|rb cb _ Habs Eb E _ _|i f d _ _ _ _ E _ _].
  - exists []. rewrite E, app_nil_r. repeat split; auto; discriminate.
  - exists [issued_fetch s rb cb]. split; [exact E|].
    rewrite fetches_for_one. unfold fetch_for. simpl.
    case_bool_decide as Hd.
    + destruct Hd as [-> ->]. repeat split; auto.
      * intros [b Hb]. congruence.
      * intros _. unfold block_state. rewrite Eb, lookup2_insert.
        rewrite decide_True by done. eauto.
    + repeat split; auto; discriminate.
  - exists []. rewrite E, app_nil_r. repeat split; auto; discriminate.
Qed.

Lemma exec_requests acts s rowBlock colBlock :
  Forall (fun a => invalidating a = false) acts ->
  exists new,
    dataRequests (exec acts s) = dataRequests s ++ new /\
    (fetches_for rowBlock colBlock new <= 1)%nat /\
    (is_Some (block_state s rowBlock colBlock) ->
     fetches_for rowBlock colBlock new = 0%nat).
Proof.
  intros Hacts. revert s.
  induction Hacts as [|a acts Ha _ IH]; intros s.
  - exists []. rewrite app_nil_r. repeat split; auto.
  - destruct (turn_requests a s rowBlock colBlock Ha) as (n1 & E1 & L1 & Z1 & P1).
    destruct (IH (turn a s)) as (n2 & E2 & L2 & Z2).
    exists (n1 ++ n2). simpl. rewrite E2, E1, <- app_assoc.
    split; [reflexivity|]. rewrite fetches_for_app. split.
    + destruct (fetches_for rowBlock colBlock n1) as [|[|k]] eqn:En1; [lia| |lia].
      rewrite Z2 by (apply P1; reflexivity). lia.
    + intros Hb. rewrite (Z1 Hb), Z2; [reflexivity|].
      apply turn_block_kept; assumption.
Qed.


(** A busy block with no other fetch of its own in flight stays busy. *)
Lemma turn_busy_kept a s rowBlock colBlock :
  invalidating a = false ->
  block_state s rowBlock colBlock = Some busy ->
  Forall (fun f => fetch_for rowBlock colBlock f = false) (pendingData s) ->
  block_state (turn a s) rowBlock colBlock = Some busy /\
  Forall (fun f => fetch_for rowBlock colBlock f = false) (pendingData (turn a s)).
Proof.
  intros Hinv Hb Hp. unfold block_state in *.
  destruct (turn_kind a s Hinv)
    as [_ E _ _ P|rb cb _ Habs E _ P _|i f d _ Hi _ E _ P _]; rewrite E.
  - split; [exact Hb|]. destruct P as [->|[i ->]]; [exact Hp|].
    apply Forall_delete, Hp.
  - assert (~ (rb = rowBlock /\ cb = colBlock)) as Hne.
    { intros [-> ->]. unfold block_state in Habs. congruence. }
    rewrite lookup2_insert, decide_False by exact Hne.
    split; [exact Hb|]. rewrite P. apply Forall_app. split; [exact Hp|].
    constructor; [|constructor]. unfold fetch_for. simpl.
    apply bool_decide_eq_false. exact Hne.
  - assert (fetch_for rowBlock colBlock f = false) as Hf.
    { rewrite Forall_lookup in Hp. exact (Hp i f Hi). }
    unfold fetch_for in Hf. apply bool_decide_eq_false in Hf.
    rewrite lookup2_insert, decide_False by exact Hf.
    split; [exact Hb|]. rewrite P. apply Forall_delete, Hp.
Qed.

Lemma exec_busy_kept acts s rowBlock colBlock :
  Forall (fun a => invalidating a = false) acts ->
  block_state s rowBlock colBlock = Some busy ->
  Forall (fun f => fetch_for rowBlock colBlock f = false) (pendingData s) ->
  block_state (exec acts s) rowBlock colBlock = Some busy.
Proof.
  intros Hacts. revert s.
  induction Hacts as [|a acts Ha _ IH]; intros s Hb Hp; [exact Hb|].
  simpl. destruct (turn_busy_kept a s rowBlock colBlock Ha Hb Hp) as [Hb' Hp'].
  apply IH; assumption.
Qed.

(** *** Body queries (C1) *)

(** C1.  A body query [data("body", row, col)] inside the visible grid is
    decided by the state of the owning block
    [(row / blockSize, col / blockSize)]: on an Absent block it returns
    [null] and issues exactly one fetch, which is for that block; on a busy
    block it returns [null] and leaves everything as it is, so it issues no
    fetch; on a loaded block it returns
    [data[row mod blockSize][col mod blockSize]], the cell stored there
    whenever the array has one.  Consequently, however the consumer queries
    and whatever settles in between, as long as no invalidation runs at most
    one fetch is issued for the block. *)
Theorem data_body_by_block_state s row col :
  0 <= row < rowCount body s ->
  0 <= col < columnCount body s ->
  let rowBlock := row / _blockSize in
  let colBlock := col / _blockSize in
  (block_state s rowBlock colBlock = None ->
   exists f s',
     data body row col s = (Normal JsNull, s') /\
     dataRequests s' = dataRequests s ++ [f] /\
     pendingData s' = pendingData s ++ [f] /\
     fetch_rowBlock f = rowBlock /\ fetch_colBlock f = colBlock /\
     block_state s' rowBlock colBlock = Some busy) /\
  (block_state s rowBlock colBlock = Some busy ->
   data body row col s = (Normal JsNull, s)) /\
  (forall d : list (list Cell),
     block_state s rowBlock colBlock = Some (loaded d) ->
     data body row col s =
       block_cell d (row mod _blockSize) (col mod _blockSize) s /\
     forall cells v,
       d !! Z.to_nat (row mod _blockSize) = Some cells ->
       cells !! Z.to_nat (col mod _blockSize) = Some v ->
       data body row col s = (Normal (JsCell v), s)) /\
  (forall acts,
     Forall (fun a => invalidating a = false) acts ->
     exists new,
       dataRequests (exec acts s) = dataRequests s ++ new /\
       (fetches_for rowBlock colBlock new <= 1)%nat).
Proof.
  intros [Hrow _] [Hcol _] rowBlock colBlock.
  pose proof (data_body_run s row col) as H. cbv zeta in H.
  rewrite !Z.quot_div_nonneg, !rel_nonneg in H by (assumption || reflexivity).
  fold rowBlock colBlock in H.
  split; [|split; [|split]].
  - (* Absent *)
    intros Hb. rewrite Hb in H. eexists _, _. split; [exact H|].
    cbn [dataRequests pendingData request_data set_blocks].
    do 2 (split; [reflexivity|]).
    cbn [issued_fetch fetch_rowBlock fetch_colBlock].
    do 2 (split; [reflexivity|]).
    unfold block_state.
    cbn [_blocks request_data set_blocks].
    rewrite lookup2_insert, decide_True by done. reflexivity.
  - (* Pending *)
    intros Hb. rewrite Hb in H. exact H.
  - (* Resolved *)
    intros d Hb. rewrite Hb in H. split; [exact H|].
    intros cells v Hcells Hv. rewrite H.
    pose proof (Z.mod_pos_bound row _blockSize eq_refl) as Br.
    pose proof (Z.mod_pos_bound col _blockSize eq_refl) as Bc.
    unfold block_cell, js_index.
    destruct (Z.ltb_spec (row mod _blockSize) 0); [lia|]. rewrite Hcells.
    destruct (Z.ltb_spec (col mod _blockSize) 0); [lia|]. rewrite Hv.
    reflexivity.
  - (* between two invalidations *)
    intros acts Hacts.
    destruct (exec_requests acts s rowBlock colBlock Hacts) as (new & E & L & _).
    exists new. auto.
Qed.

(** *** Refresh (C2, C5, C10) *)

Lemma refresh_inner_run s (meta : option IDatasetMeta) :
  _refresh meta s =
    (Normal tt,
     deliver (Refreshed (_ixstr s))
       (deliver (Changed model_reset)
          (deliver (Changed (columns_inserted body 0
                               (columnCount body (set_meta meta s))))
             (deliver (Changed (rows_inserted body 0
                                  (rowCount body (set_meta meta s))))
                (deliver (Changed (columns_removed body 0 (columnCount body s)))
                   (deliver (Changed (rows_removed body 0 (rowCount body s)))
                      (set_blocks ∅ (set_meta meta s)))))))).
Proof. reflexivity. Qed.

(** Right after an invalidation the cache has no row object, so the callback
    of every fetch that was in flight throws and changes nothing. *)
Lemma fetch_then_after_refresh_throws s (contents : HdfContents) f
    (d : list (list Cell)) :
  let s' := (refresh_then (Normal contents) s).2 in
  pendingData s' = pendingData s /\
  _fetchBlock_then f d s' = (Throw TypeError, s').
Proof.
  split; [reflexivity|].
  apply fetchBlock_then_throw. simpl. apply lookup_empty.
Qed.

(** C2.  When the metadata request of a refresh is answered, the model
    delivers, in this order and nothing else, rows-removed and
    columns-removed for the old visible shape, rows-inserted and
    columns-inserted for the new one, model-reset, and the [refreshed]
    signal with the current slice string; the block cache is emptied, so
    every block is Absent again, and the metadata are those of the
    response. *)
Theorem refresh_success_events s (contents : HdfContents) :
  exists s',
    refresh_then (Normal contents) s = (Normal tt, s') /\
    delivered s' =
      delivered s ++
        [Changed (rows_removed body 0 (rowCount body s));
         Changed (columns_removed body 0 (columnCount body s));
         Changed (rows_inserted body 0 (rowCount body s'));
         Changed (columns_inserted body 0 (columnCount body s'));
         Changed model_reset;
         Refreshed (get_ixstr s')] /\
    _blocks s' = ∅ /\
    (forall rowBlock colBlock, block_state s' rowBlock colBlock = None) /\
    _meta s' = content contents /\
    rowCount body s' =
      match content contents with
      | Some meta => fst (visshape meta)
      | None => 0
      end /\
    columnCount body s' =
      match content contents with
      | Some meta => snd (visshape meta)
      | None => 0
      end.
Proof.
  eexists. split; [apply refresh_inner_run|].
  split; [simpl; rewrite <- !app_assoc; reflexivity|].
  split; [reflexivity|].
  split; [intros rowBlock colBlock; unfold block_state; simpl;
          rewrite lookup_empty; reflexivity|].
  split; [reflexivity|].
  unfold rowCount, columnCount. simpl.
  destruct (content contents); split; auto using or_zero_id.
Qed.

(** C5.  A rejected metadata request passes through [refresh()] to its
    caller and touches nothing: calling [refresh()] only hands the request
    to the transport layer, and when that request is rejected the promise
    rejects with the same reason while the metadata, the visible shape, the
    slice labels, the block cache and the notifications delivered so far are
    what they were. *)
Theorem refresh_failure_changes_nothing s (e : JsError) (i : nat) :
  refresh s =
    (Normal tt,
     request_contents
       {| cp_fpath := _fpath s; cp_uri := _uri s; cp_ixstr := _ixstr s |} s) /\
  refresh_then (Throw e) s = (Throw e, s) /\
  let s' := turn (SettleContents i (Throw e)) s in
  delivered s' = delivered s /\
  _meta s' = _meta s /\
  _blocks s' = _blocks s /\
  rowCount body s' = rowCount body s /\
  columnCount body s' = columnCount body s /\
  rowSlice s' = rowSlice s /\
  colSlice s' = colSlice s /\
  get_ixstr s' = get_ixstr s /\
  dataRequests s' = dataRequests s /\
  pendingData s' = pendingData s.
Proof.
  split; [reflexivity|]. split; [reflexivity|].
  unfold turn, run, settle_contents. unfold_m.
  destruct (pendingContents s !! i); simpl; repeat split; reflexivity.
Qed.

(** C10.  Assigning the [ixstr] property changes what its getter returns
    at once, while the metadata request the setter starts is still pending
    and the metadata, the cache and the notifications are untouched;
    [refresh()], the settlement of its request and [_refresh] never change
    the slice string, the file path or the uri. *)
Theorem ixstr_setter_and_refresh_frame s (v : string) :
  (exists s',
     set_ixstr_prop v s = (Normal tt, s') /\
     get_ixstr s' = v /\
     pendingContents s' =
       pendingContents s ++
         [{| cp_fpath := _fpath s; cp_uri := _uri s; cp_ixstr := v |}] /\
     _meta s' = _meta s /\ _blocks s' = _blocks s /\
     delivered s' = delivered s /\
     _fpath s' = _fpath s /\ _uri s' = _uri s) /\
  (let s' := (refresh s).2 in
   _ixstr s' = _ixstr s /\ _fpath s' = _fpath s /\ _uri s' = _uri s /\
   _meta s' = _meta s /\ _blocks s' = _blocks s) /\
  (forall outcome : Completion HdfContents,
     let s' := (refresh_then outcome s).2 in
     _ixstr s' = _ixstr s /\ _fpath s' = _fpath s /\ _uri s' = _uri s /\
     _ready s' = _ready s /\
     dataRequests s' = dataRequests s /\ pendingData s' = pendingData s) /\
  (forall meta : option IDatasetMeta,
     let s' := (_refresh meta s).2 in
     _ixstr s' = _ixstr s /\ _fpath s' = _fpath s /\ _uri s' = _uri s /\
     _ready s' = _ready s /\
     dataRequests s' = dataRequests s /\ pendingData s' = pendingData s).
Proof.
  split.
  { eexists. split; [unfold set_ixstr_prop, refresh; unfold_m; simpl; reflexivity|].
    simpl. repeat split; reflexivity. }
  split; [simpl; repeat split; reflexivity|].
  split.
  - intros [c|e]; simpl; repeat split; reflexivity.
  - intros meta. simpl. repeat split; reflexivity.
Qed.

(** *** Headers and counts (C7, C8) *)

(** C7.  A row-header cell is the decimal string of
    [rowSlice.start + row * rowSlice.step], a column-header cell that of
    [colSlice.start + col * colSlice.step], and a corner-header cell is
    [null]; none of them changes the state.  With the row slice
    [{start: 10, stop: 110, step: 2}] the header of row 5 is ["20"]. *)
Theorem data_headers s row col :
  data row_header row col s =
    (Normal (JsString (template (start (rowSlice s) + row * step (rowSlice s)))), s) /\
  data column_header row col s =
    (Normal (JsString (template (start (colSlice s) + col * step (colSlice s)))), s) /\
  data corner_header row col s = (Normal JsNull, s) /\
  (rowSlice s = {| start := 10; stop := 110; step := 2 |} ->
   data row_header 5 col s = (Normal (JsString "20"), s)).
Proof.
  repeat split. intros E. unfold data. unfold_m. rewrite E. reflexivity.
Qed.

(** C8.  For the body, [rowCount] and [columnCount] are the two components
    of the visible shape of the metadata, and 0 while there are no
    metadata; for every other region both are 1, with or without
    metadata. *)
Theorem rowCount_columnCount_regions s (region : Region) :
  rowCount body s =
    match _meta s with
    | Some meta => fst (visshape meta)
    | None => 0
    end /\
  columnCount body s =
    match _meta s with
    | Some meta => snd (visshape meta)
    | None => 0
    end /\
  (region <> body -> rowCount region s = 1 /\ columnCount region s = 1).
Proof.
  unfold rowCount, columnCount. repeat split.
  - destruct (_meta s); [apply or_zero_id|reflexivity].
  - destruct (_meta s); [apply or_zero_id|reflexivity].
  - destruct region; congruence.
  - destruct region; congruence.
Qed.

(** *** Block fetches (C3, C6, C9) *)


(** C6 as the code has it.  When a block fetch is rejected while its block
    is busy, nothing is delivered and no field of the model changes; if
    moreover no other fetch for the same block is in flight, the block stays
    busy through every later turn up to the next invalidation, and every
    query of one of its cells returns [null] and issues no fetch. *)
Theorem failed_fetch_block_stays_busy s (i : nat) f (e : JsError) :
  pendingData s !! i = Some f ->
  block_state s (fetch_rowBlock f) (fetch_colBlock f) = Some busy ->
  Forall (fun f' => fetch_for (fetch_rowBlock f) (fetch_colBlock f) f' = false)
    (delete i (pendingData s)) ->
  let s' := turn (SettleData i (Throw e)) s in
  delivered s' = delivered s /\
  _blocks s' = _blocks s /\
  _meta s' = _meta s /\
  dataRequests s' = dataRequests s /\
  pendingData s' = delete i (pendingData s) /\
  forall acts,
    Forall (fun a => invalidating a = false) acts ->
    block_state (exec acts s') (fetch_rowBlock f) (fetch_colBlock f) = Some busy /\
    forall row col,
      0 <= row -> 0 <= col ->
      row / _blockSize = fetch_rowBlock f ->
      col / _blockSize = fetch_colBlock f ->
      data body row col (exec acts s') = (Normal JsNull, exec acts s').
Proof.
  intros Hi Hb Hp s'.
  assert (s' = take_data i s) as Es'.
  { unfold s', turn, run, settle_data. unfold_m. rewrite Hi. reflexivity. }
  rewrite Es'. do 5 (split; [reflexivity|]).
  intros acts Hacts.
  assert (block_state (exec acts (take_data i s)) (fetch_rowBlock f)
            (fetch_colBlock f) = Some busy) as Hbusy.
  { apply exec_busy_kept; assumption. }
  split; [exact Hbusy|].
  intros row col Hr Hc Er Ec.
  pose proof (data_body_run (exec acts (take_data i s)) row col) as H.
  cbv zeta in H.
  rewrite !Z.quot_div_nonneg, Er, Ec, Hbusy in H by (assumption || reflexivity).
  exact H.
Qed.

(** C9.  The sub-range string that [_fetchBlock] sends and the
    cells-changed notification that the fetch delivers when it resolves
    describe the same rectangle: the string is
    ["row:rowStop, column:colStop"] for the origin [(row, column)] of the
    notification and [rowStop = row + rowSpan],
    [colStop = column + columnSpan], and it is the string of no other
    rectangle. *)
Theorem fetch_subrange_matches_event s rowBlock colBlock
    (rowEntry : gmap Z (Block Cell)) :
  _blocks s !! rowBlock = Some rowEntry ->
  exists f s1,
    _fetchBlock rowBlock colBlock s = (Normal tt, s1) /\
    dataRequests s1 = dataRequests s ++ [f] /\
    pendingData s1 = pendingData s ++ [f] /\
    forall s2 (d : list (list Cell)),
      is_Some (_blocks s2 !! rowBlock) ->
      exists s3 row column rowSpan columnSpan,
        _fetchBlock_then f d s2 = (Normal tt, s3) /\
        delivered s3 =
          delivered s2 ++
            [Changed (cells_changed body row column rowSpan columnSpan)] /\
        dp_subixstr (fetch_params f) =
          subixstr_of row (row + rowSpan) column (column + columnSpan) /\
        row = rowBlock * _blockSize /\
        column = colBlock * _blockSize /\
        forall r t c u,
          dp_subixstr (fetch_params f) = subixstr_of r t c u ->
          r = row /\ t = row + rowSpan /\ c = column /\ u = column + columnSpan.
Proof.
  intros Hrow. exists (issued_fetch s rowBlock colBlock). eexists.
  split; [apply (fetchBlock_run _ _ _ _ Hrow)|].
  do 2 (split; [reflexivity|]).
  intros s2 d [e He]. eexists _, _, _, _, _.
  split; [apply (fetchBlock_then_run s2 (issued_fetch s rowBlock colBlock) d e He)|].
  split; [reflexivity|]. cbn [issued_fetch fetch_params dp_subixstr].
  assert (forall a b : Z, a + (b - a) = b) as Hadd by (intros; lia).
  rewrite !Hadd.
  split; [reflexivity|]. split; [reflexivity|]. split; [reflexivity|].
  intros r t c u E. symmetry in E. apply subixstr_of_inj in E. exact E.
Qed.

End Properties.

(** ** The properties on the example states *)

(** Row 5, column 7 of the freshly opened grid: the block (0, 0) is Absent,
    the query returns [null] and issues the one fetch of that block. *)
Lemma data_body_by_block_state_witness :
  0 <= 5 < rowCount body opened /\
  0 <= 7 < columnCount body opened /\
  block_state opened (5 / _blockSize) (7 / _blockSize) = None /\
  exists f s',
    data body 5 7 opened = (Normal JsNull, s') /\
    dataRequests s' = dataRequests opened ++ [f] /\
    fetch_rowBlock f = 0 /\ fetch_colBlock f = 0 /\
    block_state s' 0 0 = Some busy.
Proof.
  assert (0 <= 5 < rowCount body opened) as Hrow
    by (vm_compute; split; [discriminate|reflexivity]).
  assert (0 <= 7 < columnCount body opened) as Hcol
    by (vm_compute; split; [discriminate|reflexivity]).
  assert (block_state opened (5 / _blockSize) (7 / _blockSize) = None) as Habs
    by reflexivity.
  split; [exact Hrow|]. split; [exact Hcol|]. split; [exact Habs|].
  destruct (data_body_by_block_state opened 5 7 Hrow Hcol) as (Hfetch & _).
  destruct (Hfetch Habs) as (f & s' & E & Ereq & _ & Er & Ec & Eb).
  exists f, s'. auto.
Defined.


(** The fetch of block (0, 0) of the opened grid is rejected; the cells of
    the block are queried afterwards. *)
Lemma failed_fetch_block_stays_busy_witness :
  pendingData querying !! 0%nat = Some (issued_fetch opened 0 0) /\
  block_state querying 0 0 = Some busy /\
  let s' := turn (SettleData 0 (Throw TransportError)) querying in
  let later := exec [CallData body 3 4; CallData body 99 49] s' in
  delivered s' = delivered querying /\
  block_state later 0 0 = Some busy /\
  data body 42 17 later = (Normal JsNull, later).
Proof.
  assert (pendingData querying !! 0%nat = Some (issued_fetch opened 0 0))
    as Hi by reflexivity.
  assert (block_state querying 0 0 = Some busy) as Hb by reflexivity.
  split; [exact Hi|]. split; [exact Hb|].
  destruct (failed_fetch_block_stays_busy querying 0 (issued_fetch opened 0 0)
              TransportError Hi Hb (Forall_nil_2 _))
    as (Hd & _ & _ & _ & _ & Hlater).
  intros s' later. split; [exact Hd|].
  destruct (Hlater [CallData body 3 4; CallData body 99 49]) as (Hbusy & Hnull).
  { repeat constructor. }
  split; [exact Hbusy|].
  apply Hnull; [lia|lia|reflexivity|reflexivity].
Defined.

(** Row 5 of the sliced grid is row 20 of the dataset. *)
Lemma data_headers_witness :
  rowSlice sliced = {| start := 10; stop := 110; step := 2 |} /\
  data row_header 5 0 sliced = (Normal (JsString "20"), sliced).
Proof.
  assert (rowSlice sliced = {| start := 10; stop := 110; step := 2 |}) as E
    by reflexivity.
  split; [exact E|].
  destruct (data_headers sliced 5 0) as (_ & _ & _ & H). exact (H E).
Defined.

(** The row header of the opened grid. *)
Lemma rowCount_columnCount_regions_witness :
  row_header <> body /\
  rowCount row_header opened = 1 /\ columnCount row_header opened = 1.
Proof.
  assert (row_header <> body) as N by discriminate.
  split; [exact N|].
  destruct (rowCount_columnCount_regions opened row_header) as (_ & _ & H).
  exact (H N).
Defined.

(** Block (2, 0) of the 250 by 50 grid: the request is for rows 200 to 250. *)
Lemma fetch_subrange_matches_event_witness :
  _blocks (set_blocks (<[2 := ∅]> (_blocks opened)) opened) !! 2 = Some ∅ /\
  exists f s1,
    _fetchBlock 2 0 (set_blocks (<[2 := ∅]> (_blocks opened)) opened)
      = (Normal tt, s1) /\
    dataRequests s1 = [f] /\
    exists s3 row column rowSpan columnSpan,
      _fetchBlock_then f [[1]] s1 = (Normal tt, s3) /\
      delivered s3 =
        delivered s1 ++ [Changed (cells_changed body row column rowSpan columnSpan)] /\
      dp_subixstr (fetch_params f) =
        subixstr_of row (row + rowSpan) column (column + columnSpan).
Proof.
  assert (_blocks (set_blocks (<[2 := ∅]> (_blocks opened)) opened) !! 2
          = Some ∅) as Hrow by reflexivity.
  split; [exact Hrow|].
  destruct (fetch_subrange_matches_event _ 2 0 ∅ Hrow)
    as (f & s1 & E & Ereq & Epen & Hthen).
  exists f, s1. split; [exact E|]. split; [exact Ereq|].
  assert (is_Some (_blocks s1 !! 2)) as Hsome.
  { rewrite (fetchBlock_run _ 2 0 ∅ Hrow) in E. injection E as <-.
    simpl. rewrite lookup_insert_eq. eauto. }
  destruct (Hthen s1 [[1]] Hsome)
    as (s3 & row & column & rowSpan & columnSpan & E3 & D3 & S3 & _).
  exists s3, row, column, rowSpan, columnSpan. auto.
Defined.

(** C4 on the code.  The slice string is set while the fetch of block
    (0, 0) is in flight, and the metadata come back first: the fetch is
    still pending and the cache is empty.  When the fetch then resolves, its
    callback throws on [this._blocks[0]], which is [undefined]: nothing is
    stored and nothing is delivered.  Only once a query has created the row
    object again does the callback store the stale data and deliver its
    notification, with the spans of the old shape. *)
Theorem stale_fetch_resolution_throws :
  pendingData refreshed_while_fetching = [issued_fetch opened 0 0] /\
  _blocks refreshed_while_fetching = ∅ /\
  settle_data 0 (Normal [[1]]) refreshed_while_fetching =
    (Throw TypeError, take_data 0 refreshed_while_fetching) /\
  (let s' := turn (SettleData 0 (Normal [[1]])) refreshed_while_fetching in
   delivered s' = delivered refreshed_while_fetching /\
   _blocks s' = ∅ /\
   pendingData s' = []) /\
  (let s' := turn (SettleData 0 (Normal [[1]])) queried_again in
   block_state s' 0 0 = Some (loaded [[1]]) /\
   delivered s' =
     delivered queried_again ++ [Changed (cells_changed body 0 0 100 50)] /\
   rowCount body s' = 50).
Proof.
  split; [vm_compute; reflexivity|].
  split; [vm_compute; reflexivity|].
  split; [vm_compute; reflexivity|].
  split; (split; [vm_compute; reflexivity|]);
    split; vm_compute; reflexivity.
Qed.

(** C6 as the spec has it fails.  Two fetches of block (0, 0) are in
    flight, one from before the last invalidation and one from after it.
    The second is rejected while the block is busy; no invalidation
    follows, and yet the first one resolves, stores its data, and the next
    query of the cell (0, 0) returns a value. *)
Lemma failed_fetch_overwritten_by_stale_fetch :
  pendingData queried_again =
    [issued_fetch opened 0 0; issued_fetch refreshed_while_fetching 0 0] /\
  block_state queried_again 0 0 = Some busy /\
  let s' := turn (SettleData 1 (Throw TransportError)) queried_again in
  let acts := [SettleData 0 (Normal [[42]])] in
  block_state s' 0 0 = Some busy /\
  Forall (fun a => invalidating a = false) acts /\
  block_state (exec acts s') 0 0 = Some (loaded [[42]]) /\
  data body 0 0 (exec acts s') = (Normal (JsCell 42), exec acts s') /\
  data body 0 0 (exec acts s') <> (Normal JsNull, exec acts s').
Proof.
  split; [vm_compute; reflexivity|]. split; [vm_compute; reflexivity|].
  intros s' acts.
  split; [vm_compute; reflexivity|]. split; [repeat constructor|].
  split; [vm_compute; reflexivity|].
  assert (data body 0 0 (exec acts s') = (Normal (JsCell 42), exec acts s'))
    as E by (vm_compute; reflexivity).
  split; [exact E|]. rewrite E. discriminate.
Qed.

(** ** Further properties of the model *)

Section Coverage.

Context {Cell : Type}.

Implicit Types (s : System Cell) (a : Action Cell) (acts : list (Action Cell)).
Implicit Types (row col rowBlock colBlock : Z) (f : BlockFetch).

(** *** What a query leaves alone *)

(** The fields that the event loop tracks across a query. *)
Lemma data_frame s (region : Region) row col :
  let s' := (data region row col s).2 in
  _ixstr s' = _ixstr s /\
  _fpath s' = _fpath s /\ _uri s' = _uri s /\ _ready s' = _ready s /\
  contentsRequests s' = contentsRequests s /\
  (region <> body \/ is_Some (block_state s (row ÷ _blockSize) (col ÷ _blockSize)) ->
   s' = s).
Proof.
  assert (forall s0 : System Cell, s0 = s ->
    _ixstr s0 = _ixstr s /\
    _fpath s0 = _fpath s /\ _uri s0 = _uri s /\ _ready s0 = _ready s /\
    contentsRequests s0 = contentsRequests s /\
    (region <> body \/
       is_Some (block_state s (row ÷ _blockSize) (col ÷ _blockSize)) ->
     s0 = s)) as Same.
  { intros s0 ->. do 5 (split; [reflexivity|]). reflexivity. }
  destruct region; try (apply Same; reflexivity).
  pose proof (data_body_run s row col) as H. cbv zeta in H.
  destruct (block_state s (row ÷ _blockSize) (col ÷ _blockSize))
    as [[|d]|] eqn:Hb; cbv zeta; rewrite H.
  - apply Same. reflexivity.
  - apply Same. apply block_cell_state.
  - cbn [snd]. do 5 (split; [reflexivity|]).
    intros [Hr|[b Hs]]; congruence.
Qed.

(** X1.  A call of [data], whatever the region and the indices, never
    changes the metadata, the slice string, the resource, the readiness, the
    notifications or the metadata requests; it changes no block but the one
    that owns the cell, [(row ÷ blockSize, col ÷ blockSize)] with the
    truncating quotient; and it changes nothing at all when the region is a
    header or the owning block is not Absent. *)
Theorem data_changes_only_its_block s (region : Region) row col :
  let s' := (data region row col s).2 in
  _meta s' = _meta s /\ _ixstr s' = _ixstr s /\
  _fpath s' = _fpath s /\ _uri s' = _uri s /\ _ready s' = _ready s /\
  delivered s' = delivered s /\
  contentsRequests s' = contentsRequests s /\
  pendingContents s' = pendingContents s /\
  (forall rowBlock colBlock,
     ~ (row ÷ _blockSize = rowBlock /\ col ÷ _blockSize = colBlock) ->
     block_state s' rowBlock colBlock = block_state s rowBlock colBlock) /\
  (region <> body \/ is_Some (block_state s (row ÷ _blockSize) (col ÷ _blockSize)) ->
   s' = s).
Proof.
  assert (forall s0 : System Cell, s0 = s ->
    _meta s0 = _meta s /\ _ixstr s0 = _ixstr s /\
    _fpath s0 = _fpath s /\ _uri s0 = _uri s /\ _ready s0 = _ready s /\
    delivered s0 = delivered s /\
    contentsRequests s0 = contentsRequests s /\
    pendingContents s0 = pendingContents s /\
    (forall rowBlock colBlock,
       ~ (row ÷ _blockSize = rowBlock /\ col ÷ _blockSize = colBlock) ->
       block_state s0 rowBlock colBlock = block_state s rowBlock colBlock) /\
    (region <> body \/
       is_Some (block_state s (row ÷ _blockSize) (col ÷ _blockSize)) ->
     s0 = s)) as Same.
  { intros s0 ->. do 8 (split; [reflexivity|]). split; reflexivity. }
  destruct region; try (apply Same; reflexivity).
  pose proof (data_body_run s row col) as H. cbv zeta in H.
  destruct (block_state s (row ÷ _blockSize) (col ÷ _blockSize))
    as [[|d]|] eqn:Hb; cbv zeta.
  - rewrite H. apply Same. reflexivity.
  - rewrite H. apply Same. apply block_cell_state.
  - rewrite H. cbn [snd].
    do 8 (split; [reflexivity|]). split.
    + intros rowBlock colBlock Hne. unfold block_state.
      cbn [_blocks request_data set_blocks].
      rewrite lookup2_insert, decide_False by exact Hne. reflexivity.
    + intros [Hr|[b Hs]]; congruence.
Qed.

(** *** What no turn of the event loop changes *)

Lemma settle_contents_run s (i : nat) (outcome : Completion HdfContents) :
  turn (SettleContents i outcome) s = s \/
  turn (SettleContents i outcome) s = take_contents i s \/
  exists contents,
    outcome = Normal contents /\
    turn (SettleContents i outcome) s =
      (refresh_then (Normal contents) (take_contents i s)).2.
Proof.
  unfold turn, run, settle_contents. unfold_m.
  destruct (pendingContents s !! i); [|left; reflexivity].
  destruct outcome as [contents|e]; [|right; left; reflexivity].
  right. right. exists contents. split; reflexivity.
Qed.

(** The fields that only [init] and the setter assign, and the requests a
    turn adds. *)
Lemma turn_frame a s :
  _fpath (turn a s) = _fpath s /\
  _uri (turn a s) = _uri s /\
  _ready (turn a s) = _ready s /\
  _ixstr (turn a s) = last_ixstr [a] (_ixstr s) /\
  (contentsRequests (turn a s) = contentsRequests s \/
   exists v,
     contentsRequests (turn a s) =
       contentsRequests s ++
         [{| cp_fpath := _fpath s; cp_uri := _uri s; cp_ixstr := v |}]) /\
  (dataRequests (turn a s) = dataRequests s \/
   exists rowBlock colBlock,
     dataRequests (turn a s) =
       dataRequests s ++ [issued_fetch s rowBlock colBlock]).
Proof.
  destruct a as [region row col|v| |i o|i o].
  - pose proof (data_frame s region row col) as H.
    cbv zeta in H. destruct H as (Ei & Ef & Eu & Er & Ec & Hsame).
    assert (turn (CallData region row col) s = (data region row col s).2) as Et.
    { unfold turn, run. unfold mbind, M_bind, mret, M_ret.
      destruct (data region row col s) as [[v|e] s']; reflexivity. }
    rewrite Et. do 4 (split; [assumption|]). split; [left; exact Ec|].
    destruct region; try (rewrite Hsame by (left; discriminate); left; reflexivity).
    pose proof (data_body_run s row col) as H. cbv zeta in H.
    destruct (block_state s (row ÷ _blockSize) (col ÷ _blockSize)) as [b|] eqn:Hb.
    + rewrite Hsame by (right; eauto). left; reflexivity.
    + rewrite H. right. eexists _, _. reflexivity.
  - do 4 (split; [reflexivity|]). split; [|left; reflexivity].
    right. exists v. reflexivity.
  - do 4 (split; [reflexivity|]). split; [|left; reflexivity].
    right. exists (_ixstr s). reflexivity.
  - assert (TurnKind s (turn (SettleData i o) s)) as K by (apply turn_kind; reflexivity).
    assert (_fpath (turn (SettleData i o) s) = _fpath s /\
            _uri (turn (SettleData i o) s) = _uri s /\
            _ready (turn (SettleData i o) s) = _ready s /\
            _ixstr (turn (SettleData i o) s) = _ixstr s /\
            contentsRequests (turn (SettleData i o) s) = contentsRequests s)
      as (Ef & Eu & Er & Ei & Ec).
    { unfold turn, run, settle_data. unfold_m.
      destruct (pendingData s !! i) as [f|]; [|repeat split].
      destruct o as [d|e]; [|repeat split].
      destruct (_blocks s !! fetch_rowBlock f) as [rowEntry|] eqn:Hrow.
      - erewrite fetchBlock_then_run by (simpl; exact Hrow). repeat split.
      - rewrite fetchBlock_then_throw by (simpl; exact Hrow). repeat split. }
    do 4 (split; [assumption|]). split; [left; exact Ec|].
    destruct K as [_ _ E _ _|rb cb _ _ _ E _ _|j f d _ _ _ _ E _ _].
    + left; exact E.
    + right. exists rb, cb. exact E.
    + left; exact E.
  - destruct (settle_contents_run s i o) as [->|[->|(c & -> & ->)]];
      (do 4 (split; [reflexivity|])); split; left; reflexivity.
Qed.

Lemma exec_snoc acts a s : exec (acts ++ [a]) s = turn a (exec acts s).
Proof. unfold exec. rewrite foldl_app. reflexivity. Qed.

Lemma last_ixstr_snoc acts a (v : string) :
  last_ixstr (acts ++ [a]) v = last_ixstr [a] (last_ixstr acts v).
Proof.
  revert v. induction acts as [|b acts IH]; intros v; [reflexivity|].
  destruct b; simpl; apply IH.
Qed.

Lemma exec_keeps_resource_and_ixstr_aux acts s :
  _fpath (exec acts s) = _fpath s /\ _uri (exec acts s) = _uri s.
Proof.
  induction acts as [|a acts IH] using rev_ind; [split; reflexivity|].
  rewrite exec_snoc. destruct IH as (Ef & Eu).
  destruct (turn_frame a (exec acts s)) as (Ef' & Eu' & _).
  rewrite Ef', Eu'. auto.
Qed.

(** X2.  Over any run of the event loop, with or without invalidations,
    the file path, the uri and the readiness of the model never change, and
    the slice string is the last value that was assigned to the [ixstr]
    property: no response, query or failure moves any of them. *)
Theorem exec_keeps_resource_and_ixstr acts s :
  _fpath (exec acts s) = _fpath s /\
  _uri (exec acts s) = _uri s /\
  _ready (exec acts s) = _ready s /\
  get_ixstr (exec acts s) = last_ixstr acts (get_ixstr s).
Proof.
  unfold get_ixstr.
  induction acts as [|a acts IH] using rev_ind; [repeat split|].
  rewrite exec_snoc, last_ixstr_snoc.
  destruct IH as (Ef & Eu & Er & Ei).
  destruct (turn_frame a (exec acts s)) as (Ef' & Eu' & Er' & Ei' & _).
  rewrite Ef', Eu', Er', Ei', Ef, Eu, Er, Ei. repeat split.
Qed.

Lemma issued_fetch_block_request s rowBlock colBlock :
  block_request (_fpath s) (_uri s) (issued_fetch s rowBlock colBlock).
Proof.
  unfold block_request, issued_fetch. simpl.
  repeat split; apply Z.le_min_l.
Qed.

Lemma exec_requests_wellformed acts s (fpath uri : string) :
  _fpath s = fpath -> _uri s = uri ->
  Forall (block_request fpath uri) (dataRequests s) ->
  Forall (fun p => cp_fpath p = fpath /\ cp_uri p = uri) (contentsRequests s) ->
  Forall (block_request fpath uri) (dataRequests (exec acts s)) /\
  Forall (fun p => cp_fpath p = fpath /\ cp_uri p = uri)
    (contentsRequests (exec acts s)).
Proof.
  intros Ef Eu Hd Hc.
  induction acts as [|a acts IH] using rev_ind; [split; assumption|].
  rewrite exec_snoc. destruct IH as [IHd IHc].
  destruct (exec_keeps_resource_and_ixstr_aux acts s) as (Ef' & Eu').
  destruct (turn_frame a (exec acts s)) as (_ & _ & _ & _ & Hcr & Hdr).
  split.
  - destruct Hdr as [->|(rb & cb & ->)]; [exact IHd|].
    apply Forall_app. split; [exact IHd|]. constructor; [|constructor].
    rewrite <- Ef, <- Eu, <- Ef', <- Eu'. apply issued_fetch_block_request.
  - destruct Hcr as [->|(v & ->)]; [exact IHc|].
    apply Forall_app. split; [exact IHc|]. constructor; [|constructor].
    simpl. rewrite Ef', Eu'. auto.
Qed.

(** X3.  Every request the model sends after [init], over any run, is for
    the file path and uri that [init] bound; every block request starts at
    the origin of its block, asks for at most [blockSize] rows and
    [blockSize] columns, and its sub-range string spells exactly that
    rectangle. *)
Theorem requests_are_block_requests (fpath uri : string) (meta : IDatasetMeta)
    acts :
  let s := exec acts (init fpath uri meta (@new_model Cell)).2 in
  Forall (block_request fpath uri) (dataRequests s) /\
  Forall (fun p => cp_fpath p = fpath /\ cp_uri p = uri) (contentsRequests s).
Proof.
  apply exec_requests_wellformed; try reflexivity; constructor.
Qed.

(** *** Fetch volume and the life cycle of a block *)

Lemma invalidations_cons a acts :
  invalidations (a :: acts) =
    ((if invalidating a then 1 else 0) + invalidations acts)%nat.
Proof.
  unfold invalidations. rewrite filter_cons.
  destruct (invalidating a); [rewrite decide_True by done|
    rewrite decide_False by done]; reflexivity.
Qed.

Lemma turn_invalidating_requests a s :
  invalidating a = true -> dataRequests (turn a s) = dataRequests s.
Proof.
  destruct a as [| | | |i [c|e]]; try discriminate. intros _.
  destruct (settle_contents_run s i (Normal c)) as [->|[->|(c' & _ & ->)]];
    reflexivity.
Qed.

Lemma exec_fetches_bounded_aux acts s rowBlock colBlock :
  exists new,
    dataRequests (exec acts s) = dataRequests s ++ new /\
    (fetches_for rowBlock colBlock new <= 1 + invalidations acts)%nat /\
    (is_Some (block_state s rowBlock colBlock) ->
     fetches_for rowBlock colBlock new <= invalidations acts)%nat.
Proof.
  revert s. induction acts as [|a acts IH]; intros s.
  - exists []. rewrite app_nil_r. split; [reflexivity|].
    unfold fetches_for, invalidations. simpl. split; [lia|intros _; lia].
  - destruct (IH (turn a s)) as (n2 & E2 & L2 & P2).
    rewrite invalidations_cons. simpl.
    destruct (invalidating a) eqn:Ha.
    + exists n2. rewrite E2, (turn_invalidating_requests a s Ha).
      split; [reflexivity|]. split; [lia|]. intros _; lia.
    + destruct (turn_requests a s rowBlock colBlock Ha) as (n1 & E1 & L1 & Z1 & P1).
      exists (n1 ++ n2). rewrite E2, E1, <- app_assoc.
      split; [reflexivity|]. rewrite fetches_for_app. split.
      * destruct (fetches_for rowBlock colBlock n1) as [|[|k]] eqn:En1; [lia| |lia].
        specialize (P2 (P1 eq_refl)). lia.
      * intros Hb. rewrite (Z1 Hb).
        specialize (P2 (turn_block_kept a s rowBlock colBlock Ha Hb)). lia.
Qed.

(** X4.  Over any run of the event loop the number of requests sent for one
    block is at most one more than the number of invalidations in the run:
    queries, however many, never amplify the fetch volume beyond one request
    per block and invalidation epoch. *)
Theorem exec_fetches_bounded acts s rowBlock colBlock :
  exists new,
    dataRequests (exec acts s) = dataRequests s ++ new /\
    (fetches_for rowBlock colBlock new <= 1 + invalidations acts)%nat.
Proof.
  destruct (exec_fetches_bounded_aux acts s rowBlock colBlock) as (new & E & L & _).
  exists new. auto.
Qed.

Lemma turn_block_rank a s rowBlock colBlock :
  invalidating a = false ->
  (block_rank (block_state s rowBlock colBlock) <=
   block_rank (block_state (turn a s) rowBlock colBlock))%nat.
Proof.
  intros Hinv. unfold block_state.
  destruct (turn_kind a s Hinv)
    as [_ E _ _ _|rb cb _ Habs E _ _ _|i f d _ _ _ E _ _ _]; rewrite E.
  - lia.
  - rewrite lookup2_insert. case_decide as Hd; [|lia].
    destruct Hd as [-> ->]. unfold block_state in Habs. rewrite Habs. simpl. lia.
  - rewrite lookup2_insert. case_decide; [|lia].
    destruct (_blocks s !! rowBlock ≫= (.!! colBlock)) as [[|d']|]; simpl; lia.
Qed.

(** X5.  Between two invalidations a block only moves forward in the life
    cycle Absent, Pending, Resolved: over any run without an invalidation
    its rank never decreases, so a loaded block is never marked busy again
    and no entry is ever removed from the cache. *)
Theorem exec_block_rank_monotone acts s rowBlock colBlock :
  Forall (fun a => invalidating a = false) acts ->
  (block_rank (block_state s rowBlock colBlock) <=
   block_rank (block_state (exec acts s) rowBlock colBlock))%nat.
Proof.
  intros Hacts. revert s.
  induction Hacts as [|a acts Ha _ IH]; intros s; [reflexivity|].
  simpl. etrans; [apply (turn_block_rank a s _ _ Ha)|apply IH].
Qed.

(** *** The rectangle a query asks for *)

Lemma data_body_absent s row col :
  block_state s (row ÷ _blockSize) (col ÷ _blockSize) = None ->
  exists s',
    data body row col s = (Normal JsNull, s') /\
    dataRequests s' =
      dataRequests s ++
        [issued_fetch s (row ÷ _blockSize) (col ÷ _blockSize)].
Proof.
  intros Hb. pose proof (data_body_run s row col) as H. cbv zeta in H.
  rewrite Hb in H. eexists. split; [exact H|]. reflexivity.
Qed.

(** X6.  A query of a cell inside the visible grid whose block is Absent
    asks for a rectangle that contains the cell, lies inside the grid, and
    has between 1 and [blockSize] rows and columns; the request carries the
    current slice string. *)
Theorem in_range_query_requests_its_cell s row col :
  0 <= row < rowCount body s ->
  0 <= col < columnCount body s ->
  block_state s (row / _blockSize) (col / _blockSize) = None ->
  exists f s',
    data body row col s = (Normal JsNull, s') /\
    dataRequests s' = dataRequests s ++ [f] /\
    fetch_row f <= row < fetch_rowStop f /\
    fetch_column f <= col < fetch_colStop f /\
    fetch_rowStop f <= rowCount body s /\
    fetch_colStop f <= columnCount body s /\
    0 < fetch_rowStop f - fetch_row f <= _blockSize /\
    0 < fetch_colStop f - fetch_column f <= _blockSize /\
    dp_ixstr (fetch_params f) = get_ixstr s.
Proof.
  intros Hrow Hcol Hb.
  rewrite <- !Z.quot_div_nonneg in Hb by (tauto || reflexivity).
  destruct (data_body_absent s row col Hb) as (s' & E & Ereq).
  rewrite !Z.quot_div_nonneg in Ereq by (tauto || reflexivity).
  eexists _, s'. split; [exact E|]. split; [exact Ereq|].
  unfold issued_fetch.
  cbn [fetch_row fetch_rowStop fetch_column fetch_colStop fetch_params dp_ixstr].
  unfold _blockSize, get_ixstr.
  generalize (rowCount body s) (columnCount body s) Hrow Hcol.
  intros rows cols Hr Hc.
  pose proof (Z.div_mod row 100 ltac:(lia)).
  pose proof (Z.mod_pos_bound row 100 ltac:(lia)).
  pose proof (Z.div_mod col 100 ltac:(lia)).
  pose proof (Z.mod_pos_bound col 100 ltac:(lia)).
  repeat split; lia.
Qed.

(** X7.  [data] does not compare the indices with the visible shape: a
    query of any cell whose block is Absent returns [null] and sends a
    request, also outside the grid.  The span asked for is the smaller of
    [blockSize] and the distance from the origin of the block to the edge of
    the grid, so the range is reversed when the block starts beyond the
    edge; and a model without metadata asks for the rows and columns up
    to 0. *)
Theorem query_is_not_bounds_checked s row col :
  block_state s (row ÷ _blockSize) (col ÷ _blockSize) = None ->
  exists f s',
    data body row col s = (Normal JsNull, s') /\
    dataRequests s' = dataRequests s ++ [f] /\
    fetch_row f = row ÷ _blockSize * _blockSize /\
    fetch_column f = col ÷ _blockSize * _blockSize /\
    fetch_rowStop f - fetch_row f =
      Z.min _blockSize (rowCount body s - fetch_row f) /\
    fetch_colStop f - fetch_column f =
      Z.min _blockSize (columnCount body s - fetch_column f) /\
    (rowCount body s < fetch_row f -> fetch_rowStop f < fetch_row f) /\
    (columnCount body s < fetch_column f -> fetch_colStop f < fetch_column f) /\
    (_meta s = None -> 0 <= row -> 0 <= col ->
     fetch_rowStop f = 0 /\ fetch_colStop f = 0).
Proof.
  intros Hb. destruct (data_body_absent s row col Hb) as (s' & E & Ereq).
  eexists _, s'. split; [exact E|]. split; [exact Ereq|].
  unfold issued_fetch.
  cbn [fetch_row fetch_rowStop fetch_column fetch_colStop].
  do 2 (split; [reflexivity|]).
  split; [lia|]. split; [lia|]. split; [lia|]. split; [lia|].
  intros Hm Hr Hc. unfold rowCount, columnCount. rewrite Hm.
  unfold _blockSize.
  pose proof (Z.quot_pos row 100 Hr ltac:(lia)).
  pose proof (Z.quot_pos col 100 Hc ltac:(lia)).
  split; lia.
Qed.

(** *** What a loaded block returns *)

(** X8.  If the array stored for a block has the shape of the rectangle
    that a fetch of the block asks for under the current metadata, every
    query of a cell of the block inside the visible grid returns a cell of
    the array: it neither throws nor returns [undefined] or [null], and it
    changes nothing. *)
Theorem well_shaped_block_serves_cells s row col (d : list (list Cell)) :
  0 <= row < rowCount body s ->
  0 <= col < columnCount body s ->
  block_state s (row / _blockSize) (col / _blockSize) = Some (loaded d) ->
  well_shaped (issued_fetch s (row / _blockSize) (col / _blockSize)) d ->
  exists v, data body row col s = (Normal (JsCell v), s).
Proof.
  intros Hrow Hcol Hb [Hlen Hcells].
  pose proof (data_body_run s row col) as H. cbv zeta in H.
  rewrite !Z.quot_div_nonneg, !rel_nonneg, Hb in H by (tauto || reflexivity).
  rewrite H. clear H.
  unfold issued_fetch in Hlen, Hcells.
  cbn [fetch_row fetch_rowStop fetch_column fetch_colStop] in Hlen, Hcells.
  unfold _blockSize in *.
  pose proof (Z.div_mod row 100 ltac:(lia)).
  pose proof (Z.mod_pos_bound row 100 ltac:(lia)) as Br.
  pose proof (Z.div_mod col 100 ltac:(lia)).
  pose proof (Z.mod_pos_bound col 100 ltac:(lia)) as Bc.
  destruct (lookup_lt_is_Some_2 d (Z.to_nat (row mod 100))) as [cells Ecells];
    [lia|].
  rewrite Forall_lookup in Hcells. specialize (Hcells _ _ Ecells).
  destruct (lookup_lt_is_Some_2 cells (Z.to_nat (col mod 100))) as [v Ev];
    [lia|].
  exists v. unfold block_cell, js_index.
  destruct (Z.ltb_spec (row mod 100) 0); [lia|]. rewrite Ecells.
  destruct (Z.ltb_spec (col mod 100) 0); [lia|]. rewrite Ev.
  reflexivity.
Qed.

(** X9.  A loaded block is never fetched again, whatever was stored for it.
    When the stored array has no row at the relative row index, which is the
    truncating remainder [row % blockSize] and so negative for a negative
    row, the query throws a [TypeError]; when the row is there but has no
    cell at the relative column index, it returns [undefined]; in both cases
    nothing changes and no request is sent. *)
Theorem short_block_throws_or_undefined s row col (d : list (list Cell)) :
  block_state s (row ÷ _blockSize) (col ÷ _blockSize) = Some (loaded d) ->
  (Z.rem row _blockSize < 0 \/ Z.of_nat (length d) <= Z.rem row _blockSize ->
   data body row col s = (Throw TypeError, s)) /\
  (forall cells : list Cell,
     0 <= Z.rem row _blockSize ->
     d !! Z.to_nat (Z.rem row _blockSize) = Some cells ->
     Z.rem col _blockSize < 0 \/ Z.of_nat (length cells) <= Z.rem col _blockSize ->
     data body row col s = (Normal JsUndefined, s)).
Proof.
  intros Hb. pose proof (data_body_run s row col) as H. cbv zeta in H.
  rewrite Hb in H. rewrite H. clear H. unfold block_cell, js_index. split.
  - intros Hshort.
    destruct (Z.ltb_spec (Z.rem row _blockSize) 0) as [|Hge]; [reflexivity|].
    rewrite lookup_ge_None_2 by lia. reflexivity.
  - intros cells Hge Ecells Hshort.
    destruct (Z.ltb_spec (Z.rem row _blockSize) 0); [lia|]. rewrite Ecells.
    unfold mret, M_ret.
    destruct (Z.ltb_spec (Z.rem col _blockSize) 0); [reflexivity|].
    rewrite lookup_ge_None_2 by lia. reflexivity.
Qed.

(** *** Metadata requests and their responses *)

Lemma settle_contents_response s (i : nat) (p : IContentsParameters)
    (contents : HdfContents) :
  pendingContents s !! i = Some p ->
  turn (SettleContents i (Normal contents)) s =
    (refresh_then (Normal contents) (take_contents i s)).2.
Proof.
  intros Hi. unfold turn, run, settle_contents. unfold_m. rewrite Hi.
  reflexivity.
Qed.

(** X10.  Responses are applied in the order they arrive, not in the order
    of the requests.  After two assignments of the slice string, if the
    response to the second request arrives before the response to the
    first, the model ends with the metadata of the first request under the
    slice string of the second, and the last [refreshed] signal carries the
    second slice string. *)
Theorem last_response_wins s (v1 v2 : string) (c1 c2 : HdfContents) :
  let n := length (pendingContents s) in
  let p1 := {| cp_fpath := _fpath s; cp_uri := _uri s; cp_ixstr := v1 |} in
  let p2 := {| cp_fpath := _fpath s; cp_uri := _uri s; cp_ixstr := v2 |} in
  let s2 := exec [SetIxstr v1; SetIxstr v2] s in
  let final :=
    exec [SettleContents (S n) (Normal c2); SettleContents n (Normal c1)] s2 in
  pendingContents s2 = pendingContents s ++ [p1; p2] /\
  _meta final = content c1 /\
  get_ixstr final = v2 /\
  last (delivered final) = Some (Refreshed v2) /\
  pendingContents final = pendingContents s.
Proof.
  intros n p1 p2 s2 final.
  assert (pendingContents s2 = (pendingContents s ++ [p1]) ++ [p2]) as E2
    by reflexivity.
  assert (length (pendingContents s ++ [p1]) = S n) as Hlen.
  { rewrite length_app. simpl. unfold n. lia. }
  assert (pendingContents s2 !! S n = Some p2) as H2.
  { rewrite E2, <- Hlen. apply list_lookup_middle. reflexivity. }
  set (s3 := turn (SettleContents (S n) (Normal c2)) s2).
  assert (s3 = (refresh_then (Normal c2) (take_contents (S n) s2)).2) as E3
    by (apply (settle_contents_response _ _ _ _ H2)).
  assert (pendingContents s3 = pendingContents s ++ [p1]) as P3.
  { rewrite E3. simpl. change (pendingContents s2) with
      ((pendingContents s ++ [p1]) ++ [p2]).
    rewrite <- Hlen, delete_middle. apply app_nil_r. }
  assert (pendingContents s3 !! n = Some p1) as H1.
  { rewrite P3. apply list_lookup_middle. reflexivity. }
  assert (final = (refresh_then (Normal c1) (take_contents n s3)).2) as Ef
    by (apply (settle_contents_response _ _ _ _ H1)).
  split; [rewrite E2, <- app_assoc; reflexivity|].
  rewrite Ef. split; [reflexivity|].
  split; [rewrite E3; reflexivity|].
  split.
  - simpl. rewrite last_snoc. rewrite E3. reflexivity.
  - simpl. rewrite P3. unfold n. rewrite delete_middle. apply app_nil_r.
Qed.

(** X11.  The setter does not coalesce: a sequence of assignments to
    [ixstr] sends one metadata request per assignment, in order, each for
    the bound resource and the value assigned, and until a response arrives
    the metadata, the cache, the notifications and the block requests are
    untouched. *)
Theorem setter_sends_one_request_each (vs : list string) s :
  let s' := exec (map (@SetIxstr Cell) vs) s in
  let params :=
    map (fun v => {| cp_fpath := _fpath s; cp_uri := _uri s; cp_ixstr := v |}) vs in
  pendingContents s' = pendingContents s ++ params /\
  contentsRequests s' = contentsRequests s ++ params /\
  _meta s' = _meta s /\ _blocks s' = _blocks s /\
  delivered s' = delivered s /\ dataRequests s' = dataRequests s.
Proof.
  cbv zeta. revert s. induction vs as [|v vs IH]; intros s.
  - simpl. rewrite !app_nil_r. repeat split.
  - simpl. destruct (IH (turn (SetIxstr v) s)) as (Ep & Ec & Em & Eb & Ed & Er).
    rewrite Ep, Ec, Em, Eb, Ed, Er. simpl. rewrite <- !app_assoc.
    repeat split.
Qed.

(** X12.  An invalidation forces a new fetch: the first query of any cell
    after a metadata response returns [null] and sends a request for the
    block of the cell, even if that block was loaded before; the request
    carries the current slice string and is clipped with the row count of
    the new metadata. *)
Theorem refresh_forces_refetch s (contents : HdfContents) row col :
  let s1 := (refresh_then (Normal contents) s).2 in
  let f := issued_fetch s1 (row ÷ _blockSize) (col ÷ _blockSize) in
  exists s2,
    data body row col s1 = (Normal JsNull, s2) /\
    dataRequests s2 = dataRequests s ++ [f] /\
    dp_ixstr (fetch_params f) = get_ixstr s /\
    fetch_rowStop f =
      Z.min (row ÷ _blockSize * _blockSize + _blockSize)
        match content contents with
        | Some meta => fst (visshape meta)
        | None => 0
        end /\
    block_state s2 (row ÷ _blockSize) (col ÷ _blockSize) = Some busy.
Proof.
  intros s1 f.
  assert (block_state s1 (row ÷ _blockSize) (col ÷ _blockSize) = None) as Hb.
  { unfold block_state. simpl. rewrite lookup_empty. reflexivity. }
  pose proof (data_body_run s1 row col) as H. cbv zeta in H. rewrite Hb in H.
  eexists. split; [exact H|]. split; [reflexivity|]. split; [reflexivity|].
  split.
  - unfold f, issued_fetch. cbn [fetch_rowStop]. f_equal.
    unfold rowCount. simpl.
    destruct (content contents); [apply or_zero_id|reflexivity].
  - unfold block_state. cbn [_blocks request_data set_blocks].
    rewrite lookup2_insert, decide_True by done. reflexivity.
Qed.

(** *** Initialisation from a metadata response *)

(** X13.  [_onMetaReady] of [HdfDatasetModelParams] binds the path and the
    uri of the parameters but takes the slice string from the metadata of
    the response, not from the parameters; it delivers the invalidation
    sequence, in which [refreshed] carries that slice string, resolves
    [ready] and sends no request.  When the response has no content it
    throws a [TypeError] after binding the path and the uri: the model is
    not made ready, gets no metadata and delivers nothing. *)
Theorem onMetaReady_initialises s (parameters : IContentsParameters)
    (contents : HdfContents) :
  match content contents with
  | Some meta =>
    exists s',
      _onMetaReady parameters contents s = (Normal tt, s') /\
      _fpath s' = cp_fpath parameters /\ _uri s' = cp_uri parameters /\
      get_ixstr s' = ixstr meta /\
      _meta s' = Some meta /\ _blocks s' = ∅ /\ _ready s' = true /\
      delivered s' =
        delivered s ++
          [Changed (rows_removed body 0 (rowCount body s));
           Changed (columns_removed body 0 (columnCount body s));
           Changed (rows_inserted body 0 (fst (visshape meta)));
           Changed (columns_inserted body 0 (snd (visshape meta)));
           Changed model_reset;
           Refreshed (ixstr meta)] /\
      dataRequests s' = dataRequests s /\
      contentsRequests s' = contentsRequests s
  | None =>
    exists s',
      _onMetaReady parameters contents s = (Throw TypeError, s') /\
      _fpath s' = cp_fpath parameters /\ _uri s' = cp_uri parameters /\
      _ixstr s' = _ixstr s /\ _meta s' = _meta s /\ _blocks s' = _blocks s /\
      _ready s' = _ready s /\ delivered s' = delivered s
  end.
Proof.
  unfold _onMetaReady. destruct (content contents) as [meta|].
  - eexists. split; [unfold init; unfold_m; simpl; reflexivity|].
    do 6 (split; [reflexivity|]). split; [|split; reflexivity].
    simpl. rewrite <- !app_assoc. simpl.
    unfold rowCount, columnCount. simpl. rewrite !or_zero_id. reflexivity.
  - eexists. split; [unfold_m; simpl; reflexivity|].
    repeat split.
Qed.

(** *** Storing and reading back *)

(** X14.  What the callback of a fetch stores is what the queries read:
    once a fetch of a block has resolved with an array while the row object
    of the block is in the cache, a query of any cell of that block returns
    the entry of that array at the relative indices, whichever request the
    array answers, and the state of every other block is as before. *)
Theorem stored_block_is_read_back s f (d : list (list Cell)) row col :
  is_Some (_blocks s !! fetch_rowBlock f) ->
  row ÷ _blockSize = fetch_rowBlock f ->
  col ÷ _blockSize = fetch_colBlock f ->
  exists s',
    _fetchBlock_then f d s = (Normal tt, s') /\
    data body row col s' =
      block_cell d (Z.rem row _blockSize) (Z.rem col _blockSize) s' /\
    forall rowBlock colBlock,
      ~ (fetch_rowBlock f = rowBlock /\ fetch_colBlock f = colBlock) ->
      block_state s' rowBlock colBlock = block_state s rowBlock colBlock.
Proof.
  intros [rowEntry Hrow] Er Ec. eexists.
  split; [apply (fetchBlock_then_run s f d rowEntry Hrow)|].
  assert (forall rowBlock colBlock,
    block_state
      (deliver (fetch_event f)
         (set_blocks
            (<[fetch_rowBlock f := <[fetch_colBlock f := loaded d]> rowEntry]>
               (_blocks s)) s)) rowBlock colBlock =
    if decide (fetch_rowBlock f = rowBlock /\ fetch_colBlock f = colBlock)
    then Some (loaded d) else block_state s rowBlock colBlock) as Hstate.
  { intros rowBlock colBlock. unfold block_state.
    cbn [_blocks deliver set_blocks].
    rewrite <- (lookup2_insert (_blocks s)). rewrite Hrow. reflexivity. }
  split.
  - match goal with |- data body row col ?t = _ =>
      pose proof (data_body_run t row col) as H end.
    cbv zeta in H. rewrite Er, Ec, Hstate, decide_True in H by done.
    exact H.
  - intros rowBlock colBlock Hne. rewrite Hstate, decide_False by exact Hne.
    reflexivity.
Qed.

(** *** Header labels *)


End Coverage.

(** ** The further properties on the example states *)

(** Block (0, 0) of the opened grid goes from Absent to Resolved. *)
Lemma exec_block_rank_monotone_witness :
  Forall (fun a : Action Z => invalidating a = false)
    [CallData body 0 0; SettleData 0 (Normal [[1%Z]])] /\
  (block_rank (block_state opened 0 0) <=
   block_rank
     (block_state (exec [CallData body 0 0; SettleData 0 (Normal [[1%Z]])] opened)
        0 0))%nat.
Proof.
  assert (Forall (fun a : Action Z => invalidating a = false)
            [CallData body 0 0; SettleData 0 (Normal [[1%Z]])]) as H
    by (repeat constructor).
  split; [exact H|]. apply (exec_block_rank_monotone _ opened 0 0 H).
Defined.

(** Row 205, column 7 of the opened grid: the request is for the rows 200
    to 250 and the columns 0 to 50. *)
Lemma in_range_query_requests_its_cell_witness :
  0 <= 205 < rowCount body opened /\
  0 <= 7 < columnCount body opened /\
  block_state opened (205 / _blockSize) (7 / _blockSize) = None /\
  exists f s',
    data body 205 7 opened = (Normal JsNull, s') /\
    dataRequests s' = dataRequests opened ++ [f] /\
    fetch_row f <= 205 < fetch_rowStop f /\
    fetch_column f <= 7 < fetch_colStop f.
Proof.
  assert (0 <= 205 < rowCount body opened) as Hrow
    by (vm_compute; split; [discriminate|reflexivity]).
  assert (0 <= 7 < columnCount body opened) as Hcol
    by (vm_compute; split; [discriminate|reflexivity]).
  assert (block_state opened (205 / _blockSize) (7 / _blockSize) = None) as Hb
    by (vm_compute; reflexivity).
  split; [exact Hrow|]. split; [exact Hcol|]. split; [exact Hb|].
  destruct (in_range_query_requests_its_cell opened 205 7 Hrow Hcol Hb)
    as (f & s' & E & Ereq & Hr & Hc & _).
  exists f, s'. auto.
Defined.

(** Row 400 of the opened grid, which has 250 rows: the request is sent all
    the same, with a reversed row range. *)
Lemma query_is_not_bounds_checked_witness :
  block_state opened (400 ÷ _blockSize) (0 ÷ _blockSize) = None /\
  exists f s',
    data body 400 0 opened = (Normal JsNull, s') /\
    dataRequests s' = dataRequests opened ++ [f] /\
    fetch_row f = 400 /\
    fetch_rowStop f < fetch_row f.
Proof.
  assert (block_state opened (400 ÷ _blockSize) (0 ÷ _blockSize) = None) as Hb
    by (vm_compute; reflexivity).
  split; [exact Hb|].
  destruct (query_is_not_bounds_checked opened 400 0 Hb)
    as (f & s' & E & Ereq & Er & _ & _ & _ & Hrev & _).
  exists f, s'. split; [exact E|]. split; [exact Ereq|].
  split; [exact Er|]. apply Hrev. rewrite Er. vm_compute. reflexivity.
Defined.

(** The last cell of the grid, in the clipped block (2, 0). *)
Lemma well_shaped_block_serves_cells_witness :
  0 <= 249 < rowCount body edge_loaded /\
  0 <= 49 < columnCount body edge_loaded /\
  block_state edge_loaded (249 / _blockSize) (49 / _blockSize) =
    Some (loaded (replicate 50 (replicate 50 7))) /\
  well_shaped (issued_fetch edge_loaded (249 / _blockSize) (49 / _blockSize))
    (replicate 50 (replicate 50 7)) /\
  exists v, data body 249 49 edge_loaded = (Normal (JsCell v), edge_loaded).
Proof.
  assert (0 <= 249 < rowCount body edge_loaded) as Hrow
    by (vm_compute; split; [discriminate|reflexivity]).
  assert (0 <= 49 < columnCount body edge_loaded) as Hcol
    by (vm_compute; split; [discriminate|reflexivity]).
  assert (block_state edge_loaded (249 / _blockSize) (49 / _blockSize) =
            Some (loaded (replicate 50 (replicate 50 7)))) as Hb
    by (vm_compute; reflexivity).
  assert (well_shaped
            (issued_fetch edge_loaded (249 / _blockSize) (49 / _blockSize))
            (replicate 50 (replicate 50 7))) as Hw.
  { split; [vm_compute; reflexivity|].
    apply Forall_replicate. vm_compute. reflexivity. }
  split; [exact Hrow|]. split; [exact Hcol|]. split; [exact Hb|].
  split; [exact Hw|].
  exact (well_shaped_block_serves_cells edge_loaded 249 49 _ Hrow Hcol Hb Hw).
Defined.

(** A block that resolved with an empty array. *)
Lemma short_block_throws_or_undefined_witness :
  block_state empty_loaded (0 ÷ _blockSize) (0 ÷ _blockSize) = Some (loaded []) /\
  data body 0 0 empty_loaded = (Throw TypeError, empty_loaded).
Proof.
  assert (block_state empty_loaded (0 ÷ _blockSize) (0 ÷ _blockSize) =
            Some (loaded [])) as Hb by (vm_compute; reflexivity).
  split; [exact Hb|].
  destruct (short_block_throws_or_undefined empty_loaded 0 0 [] Hb) as (Hthrow & _).
  apply Hthrow. right. vm_compute. discriminate.
Defined.

(** The fetch of block (0, 0) resolves with two rows of two cells. *)
Lemma stored_block_is_read_back_witness :
  is_Some (_blocks querying !! fetch_rowBlock (issued_fetch opened 0 0)) /\
  1 ÷ _blockSize = fetch_rowBlock (issued_fetch opened 0 0) /\
  1 ÷ _blockSize = fetch_colBlock (issued_fetch opened 0 0) /\
  exists s',
    _fetchBlock_then (issued_fetch opened 0 0) [[5; 6]; [7; 8]] querying
      = (Normal tt, s') /\
    data body 1 1 s' = (Normal (JsCell 8), s').
Proof.
  assert (is_Some (_blocks querying !! fetch_rowBlock (issued_fetch opened 0 0)))
    as Hrow by (vm_compute; eauto).
  split; [exact Hrow|]. split; [reflexivity|]. split; [reflexivity|].
  destruct (stored_block_is_read_back querying (issued_fetch opened 0 0)
              [[5; 6]; [7; 8]] 1 1 Hrow eq_refl eq_refl) as (s' & E & Hread & _).
  exists s'. split; [exact E|]. rewrite Hread. reflexivity.
Defined.

